(** * date_planner: the input validator ([validators.py])

    A shallow embedding of [InputValidator] and of the parts of the Python
    runtime it calls ([str.lower], [str.strip], [int], [re.search], [re.sub],
    [datetime.strptime], [datetime.replace], [strftime]), followed by the
    properties of the validation pass.

    Conventions of the embedding.
    - Text is a [string] of 8-bit characters.  The case and white-space
      functions are those of Python on ASCII; a character outside ASCII is
      carried as its UTF-8 bytes and left alone by them.
    - A plan is a Python [dict] with string keys: [gmap string pyval].
    - A value of the plan is a [pyval]: [None], a bool, an int, a float or a
      str.  [PyFloat m e] is the finite float [m * 2^e]; the planner hands
      the validator an [int] ([planner.py], [int(extracted_data.get(...))]),
      the other shapes are what a caller may pass by hand.
    - A Python call either returns or raises: [outcome].
    - [datetime.now()] is read once, in [__init__]; it is the parameter
      [current_date] of every validator that needs it. *)

From Stdlib Require Import ZArith List Bool Ascii String DecimalString Lia.
From stdpp Require Import base option gmap strings sorting.

Local Open Scope string_scope.
Local Open Scope Z_scope.

(** ** Characters and strings, as Python sees them *)

Module Py.

Definition code (c : ascii) : Z := Z.of_N (N_of_ascii c).

(** [\d] and [str.isdigit] on ASCII. *)
Definition is_digit (c : ascii) : bool := (48 <=? code c) && (code c <=? 57).

Definition digit_val (c : ascii) : Z := code c - 48.

(** [\s] and [str.isspace] on ASCII: tab, line feed, vertical tab, form feed,
    carriage return, the four separators 0x1c-0x1f and the space. *)
Definition is_space (c : ascii) : bool :=
  ((9 <=? code c) && (code c <=? 13))
  || ((28 <=? code c) && (code c <=? 31))
  || (code c =? 32).

Definition is_upper (c : ascii) : bool := (65 <=? code c) && (code c <=? 90).

Definition lower_char (c : ascii) : ascii :=
  if is_upper c then ascii_of_N (Z.to_N (code c + 32)) else c.

(** [s.lower()] *)
Fixpoint lower (s : string) : string :=
  match s with
  | EmptyString => EmptyString
  | String c s' => String (lower_char c) (lower s')
  end.

Fixpoint lstrip (s : string) : string :=
  match s with
  | EmptyString => EmptyString
  | String c s' => if is_space c then lstrip s' else s
  end.

Fixpoint rstrip (s : string) : string :=
  match s with
  | EmptyString => EmptyString
  | String c s' =>
      match rstrip s' with
      | EmptyString => if is_space c then EmptyString else String c EmptyString
      | r => String c r
      end
  end.

(** [s.strip()] *)
Definition strip (s : string) : string := rstrip (lstrip s).

Fixpoint startswith (p s : string) : bool :=
  match p, s with
  | EmptyString, _ => true
  | String a p', String b s' => Ascii.eqb a b && startswith p' s'
  | String _ _, EmptyString => false
  end.

(** [sub in s] *)
Fixpoint contains (sub s : string) : bool :=
  startswith sub s ||
  match s with
  | EmptyString => false
  | String _ s' => contains sub s'
  end.

(** [sep.join(l)] *)
Fixpoint join (sep : string) (l : list string) : string :=
  match l with
  | [] => ""
  | [x] => x
  | x :: l' => x +:+ sep +:+ join sep l'
  end.

(** [str(n)] for an int. *)
Definition str_of_Z (n : Z) : string := NilZero.string_of_int (Z.to_int n).

Fixpoint take (n : nat) (s : string) : string :=
  match n, s with
  | S n', String c s' => String c (take n' s')
  | _, _ => EmptyString
  end.

(** [str.islower] and [str.upper] on one ASCII character. *)
Definition is_lower (c : ascii) : bool := (97 <=? code c) && (code c <=? 122).

Definition upper_char (c : ascii) : ascii :=
  if is_lower c then ascii_of_N (Z.to_N (code c - 32)) else c.

(** [s.title()]: a cased character is put in upper case when the one before
    it is not cased, in lower case when it is. *)
Fixpoint title_from (previous_is_cased : bool) (s : string) : string :=
  match s with
  | EmptyString => EmptyString
  | String c s' =>
      if is_lower c then
        String (if previous_is_cased then c else upper_char c) (title_from true s')
      else if is_upper c then
        String (if previous_is_cased then lower_char c else c) (title_from true s')
      else String c (title_from false s')
  end.

Definition title (s : string) : string := title_from false s.

(** [sorted(l)] on strings: ascending by code point, equal items in their
    original order. *)
Fixpoint insert_sorted (x : string) (l : list string) : list string :=
  match l with
  | [] => [x]
  | y :: l' => if String.leb x y then x :: l else y :: insert_sorted x l'
  end.

Definition sorted (l : list string) : list string := fold_right insert_sorted [] l.

End Py.

(** ** Python values and exceptions *)

Inductive pyval :=
| PyNone
| PyBool (b : bool)
| PyInt (z : Z)
| PyFloat (m e : Z)
| PyStr (s : string).

Inductive exn := AttributeError | ValueError | TypeError.

Inductive outcome (A : Type) :=
| Ok (a : A)
| Raise (e : exn).
Arguments Ok {A} a.
Arguments Raise {A} e.

Definition bind {A B} (x : outcome A) (k : A -> outcome B) : outcome B :=
  match x with
  | Ok a => k a
  | Raise e => Raise e
  end.

Notation "x <- c ;; k" := (bind c (fun x => k))
  (at level 100, c at next level, right associativity).

(** The receiver of a [str] method such as [v.lower()]: anything that is
    not a [str] has no such attribute. *)
Definition as_str (v : pyval) : outcome string :=
  match v with
  | PyStr s => Ok s
  | _ => Raise AttributeError
  end.

(** The digits of an int literal: single underscores between digits. *)
Fixpoint int_digits (acc : Z) (after_us : bool) (s : string) : option Z :=
  match s with
  | EmptyString => if after_us then None else Some acc
  | String c s' =>
      if Py.is_digit c then int_digits (acc * 10 + Py.digit_val c) false s'
      else if Ascii.eqb c "_" && negb after_us then int_digits acc true s'
      else None
  end.

Definition int_unsigned (s : string) : option Z :=
  match s with
  | String c s' => if Py.is_digit c then int_digits (Py.digit_val c) false s' else None
  | EmptyString => None
  end.

(** [int(s)] for a str, base 10. *)
Definition int_of_str (s : string) : option Z :=
  match Py.strip s with
  | String "+" s' => int_unsigned s'
  | String "-" s' => Z.opp <$> int_unsigned s'
  | s' => int_unsigned s'
  end.

(** [int(v)] *)
Definition py_int (v : pyval) : outcome Z :=
  match v with
  | PyNone => Raise TypeError
  | PyBool b => Ok (if b then 1 else 0)
  | PyInt z => Ok z
  | PyFloat m e => Ok (if 0 <=? e then m * 2 ^ e else Z.quot m (2 ^ (- e)))
  | PyStr s =>
      match int_of_str s with
      | Some z => Ok z
      | None => Raise ValueError
      end
  end.

(** [plan.get(key, default)] *)
Definition get (plan : gmap string pyval) (key : string) (default : pyval) : pyval :=
  match plan !! key with
  | Some v => v
  | None => default
  end.

(** ** Regular expressions: the fragment of [re] the validator uses

    Matching is by backtracking, as in [re]: [rmatch] lists, in the order
    the engine would try them, the ways a pattern matches a prefix of the
    text, each as the text that is left and the named groups captured. *)

Module Re.

Inductive cls :=
| Digit                      (* \d *)
| Space                      (* \s *)
| Range (lo hi : ascii)      (* [lo-hi] *)
| Chr (c : ascii).

Inductive regex :=
| Cls (k : cls)
| Lit (s : string)
| Cat (r1 r2 : regex)
| Alt (r1 r2 : regex)
| Opt (r : regex)                (* r?      greedy *)
| Plus (k : cls)                 (* k+      greedy *)
| Rep (k : cls) (lo hi : nat)    (* k{lo,hi} greedy *)
| Group (name : string) (r : regex).

Definition groups := list (string * string).

Definition cls_match (ic : bool) (k : cls) (c : ascii) : bool :=
  match k with
  | Digit => Py.is_digit c
  | Space => Py.is_space c
  | Range lo hi => (Py.code lo <=? Py.code c) && (Py.code c <=? Py.code hi)
  | Chr a => if ic then Ascii.eqb (Py.lower_char a) (Py.lower_char c) else Ascii.eqb a c
  end.

(** A literal at the head of the text; [ic] is [re.IGNORECASE]. *)
Fixpoint lit_match (ic : bool) (p s : string) : option string :=
  match p, s with
  | EmptyString, _ => Some s
  | String a p', String b s' =>
      if cls_match ic (Chr a) b then lit_match ic p' s' else None
  | String _ _, EmptyString => None
  end.

(** [k+]: what is left after each possible run, longest run first. *)
Fixpoint plus_rests (ic : bool) (k : cls) (s : string) : list string :=
  match s with
  | String c s' => if cls_match ic k c then plus_rests ic k s' ++ [s'] else []
  | EmptyString => []
  end.

(** [k{lo,hi}], longest run first. *)
Fixpoint rep_rests (ic : bool) (k : cls) (lo hi : nat) (s : string) : list string :=
  let stop := match lo with O => [s] | S _ => [] end in
  match hi with
  | O => stop
  | S hi' =>
      match s with
      | String c s' =>
          if cls_match ic k c then rep_rests ic k (Nat.pred lo) hi' s' ++ stop else stop
      | EmptyString => stop
      end
  end.

Definition consumed (s rest : string) : string :=
  Py.take (String.length s - String.length rest) s.

Fixpoint rmatch (ic : bool) (r : regex) (s : string) (g : groups)
  : list (string * groups) :=
  match r with
  | Cls k =>
      match s with
      | String c s' => if cls_match ic k c then [(s', g)] else []
      | EmptyString => []
      end
  | Lit p =>
      match lit_match ic p s with
      | Some s' => [(s', g)]
      | None => []
      end
  | Cat r1 r2 =>
      flat_map (fun m => rmatch ic r2 (fst m) (snd m)) (rmatch ic r1 s g)
  | Alt r1 r2 => rmatch ic r1 s g ++ rmatch ic r2 s g
  | Opt r1 => rmatch ic r1 s g ++ [(s, g)]
  | Plus k => map (fun s' => (s', g)) (plus_rests ic k s)
  | Rep k lo hi => map (fun s' => (s', g)) (rep_rests ic k lo hi s)
  | Group name r1 =>
      map (fun m => (fst m, (name, consumed s (fst m)) :: snd m)) (rmatch ic r1 s g)
  end.

(** [pattern.match(s)]: the first way to match at the head of [s]. *)
Definition match_ (ic : bool) (r : regex) (s : string) : option (string * groups) :=
  head (rmatch ic r s []).

(** [re.search(pattern, s).group(0)]: the leftmost match. *)
Fixpoint search (ic : bool) (r : regex) (s : string) : option string :=
  match match_ ic r s with
  | Some (rest, _) => Some (consumed s rest)
  | None =>
      match s with
      | String _ s' => search ic r s'
      | EmptyString => None
      end
  end.

(** [re.sub(pattern, '', s)]: the leftmost non-overlapping matches are cut
    out; [skip] counts the characters of the current match still to drop. *)
Fixpoint sub_del (r : regex) (skip : nat) (s : string) : string :=
  match s with
  | EmptyString => EmptyString
  | String c s' =>
      match skip with
      | S k => sub_del r k s'
      | O =>
          match match_ false r s with
          | Some (rest, _) =>
              match (String.length s - String.length rest)%nat with
              | S k => sub_del r k s'
              | O => String c (sub_del r O s')
              end
          | None => String c (sub_del r O s')
          end
      end
  end.

(** The value of a named group. *)
Fixpoint group (name : string) (g : groups) : option string :=
  match g with
  | [] => None
  | (n, v) :: g' => if String.eqb n name then Some v else group name g'
  end.

(** [a|b|...] over literals. *)
Fixpoint alts (l : list string) : regex :=
  match l with
  | [] => Lit ""
  | [x] => Lit x
  | x :: l' => Alt (Lit x) (alts l')
  end.

End Re.

(** ** [datetime]: calendar dates *)

Record date := mkdate { year : Z; month : Z; day : Z }.

Definition is_leap (y : Z) : bool :=
  (y mod 4 =? 0) && (negb (y mod 100 =? 0) || (y mod 400 =? 0)).

Definition days_in_month (y m : Z) : Z :=
  match m with
  | 1 | 3 | 5 | 7 | 8 | 10 | 12 => 31
  | 4 | 6 | 9 | 11 => 30
  | 2 => if is_leap y then 29 else 28
  | _ => 0
  end.

Definition valid_date (y m d : Z) : bool :=
  (1 <=? y) && (y <=? 9999) && (1 <=? m) && (m <=? 12)
  && (1 <=? d) && (d <=? days_in_month y m).

(** [datetime(y, m, d)]: [ValueError] on a date that does not exist. *)
Definition datetime (y m d : Z) : outcome date :=
  if valid_date y m d then Ok (mkdate y m d) else Raise ValueError.

(** [d.replace(year=y)] *)
Definition replace_year (d : date) (y : Z) : outcome date :=
  datetime y (month d) (day d).

(** [a.date() < b.date()] *)
Definition date_ltb (a b : date) : bool :=
  (year a <? year b)
  || ((year a =? year b)
      && ((month a <? month b) || ((month a =? month b) && (day a <? day b)))).

(** [calendar.month_name] and [calendar.month_abbr] in the C locale. *)
Definition month_name : list string :=
  ["January"; "February"; "March"; "April"; "May"; "June"; "July";
   "August"; "September"; "October"; "November"; "December"].

Definition month_abbr : list string :=
  ["Jan"; "Feb"; "Mar"; "Apr"; "May"; "Jun"; "Jul"; "Aug"; "Sep"; "Oct";
   "Nov"; "Dec"].

(** [l.index(x)] as a month number (1-based). *)
Fixpoint index_from (i : Z) (x : string) (l : list string) : option Z :=
  match l with
  | [] => None
  | y :: l' => if String.eqb x y then Some i else index_from (i + 1) x l'
  end.

Module Strptime.

(** [LocaleTime.f_month] and [a_month]: the names in lower case. *)
Definition f_month : list string := map Py.lower month_name.
Definition a_month : list string := map Py.lower month_abbr.

(** [sorted(l, key=len, reverse=True)], as [TimeRE.__seqToRE] applies it:
    longest first, names of one length in their order in [l]. *)
Fixpoint insert_by_len (x : string) (l : list string) : list string :=
  match l with
  | [] => [x]
  | y :: l' =>
      if (String.length y <=? String.length x)%nat then x :: l
      else y :: insert_by_len x l'
  end.

Definition sort_by_len (l : list string) : list string :=
  fold_right insert_by_len [] l.

Definition seqToRE (l : list string) (name : string) : Re.regex :=
  Re.Group name (Re.alts (sort_by_len l)).

Definition r19 : Re.regex := Re.Cls (Re.Range "1" "9").

(** The entries of [TimeRE] for the directives the validator's formats use. *)
Definition directive (c : ascii) : Re.regex :=
  if Ascii.eqb c "d" then
    (* (?P<d>3[0-1]|[1-2]\d|0[1-9]|[1-9]| [1-9]) *)
    Re.Group "d"
      (Re.Alt (Re.Cat (Re.Lit "3") (Re.Cls (Re.Range "0" "1")))
      (Re.Alt (Re.Cat (Re.Cls (Re.Range "1" "2")) (Re.Cls Re.Digit))
      (Re.Alt (Re.Cat (Re.Lit "0") r19)
      (Re.Alt r19
              (Re.Cat (Re.Lit " ") r19)))))
  else if Ascii.eqb c "m" then
    (* (?P<m>1[0-2]|0[1-9]|[1-9]) *)
    Re.Group "m"
      (Re.Alt (Re.Cat (Re.Lit "1") (Re.Cls (Re.Range "0" "2")))
      (Re.Alt (Re.Cat (Re.Lit "0") r19)
              r19))
  else if Ascii.eqb c "Y" then
    (* (?P<Y>\d\d\d\d) *)
    Re.Group "Y" (Re.Rep Re.Digit 4 4)
  else if Ascii.eqb c "b" then seqToRE a_month "b"
  else if Ascii.eqb c "B" then seqToRE f_month "B"
  else Re.Lit (String c EmptyString).

(** [TimeRE.pattern(format)]: a run of white space becomes [\s+], a
    directive its regex, any other character itself. *)
Fixpoint pattern (in_space : bool) (format : string) : Re.regex :=
  match format with
  | EmptyString => Re.Lit ""
  | String "%" (String c format') => Re.Cat (directive c) (pattern false format')
  | String c format' =>
      if Py.is_space c then
        if in_space then pattern true format'
        else Re.Cat (Re.Plus Re.Space) (pattern true format')
      else Re.Cat (Re.Cls (Re.Chr c)) (pattern false format')
  end.

Definition int_group (name : string) (default : Z) (g : Re.groups) : option Z :=
  match Re.group name g with
  | Some v => int_of_str v
  | None => Some default
  end.

Definition month_group (g : Re.groups) : option Z :=
  match Re.group "m" g, Re.group "B" g, Re.group "b" g with
  | Some v, _, _ => int_of_str v
  | None, Some v, _ => index_from 1 (Py.lower v) f_month
  | None, None, Some v => index_from 1 (Py.lower v) a_month
  | None, None, None => Some 1
  end.

(** [datetime.strptime(data_string, format)]: the format's regex must match
    at the head of the data and leave nothing over; year, month and day
    default to 1900, 1 and 1. *)
Definition strptime (data_string format : string) : outcome date :=
  match Re.match_ true (pattern false format) data_string with
  | Some (EmptyString, found) =>
      match int_group "Y" 1900 found, month_group found, int_group "d" 1 found with
      | Some y, Some m, Some d => datetime y m d
      | _, _, _ => Raise ValueError
      end
  | _ => Raise ValueError
  end.

End Strptime.

Definition pad2 (n : Z) : string :=
  if n <? 10 then "0" +:+ Py.str_of_Z n else Py.str_of_Z n.

(** [d.strftime(format)] for the directives [%B], [%d] and [%Y]. *)
Fixpoint strftime (d : date) (format : string) : string :=
  match format with
  | EmptyString => EmptyString
  | String "%" (String c format') =>
      (if Ascii.eqb c "B" then nth (Z.to_nat (month d - 1)) month_name ""
       else if Ascii.eqb c "d" then pad2 (day d)
       else if Ascii.eqb c "Y" then Py.str_of_Z (year d)
       else String "%" (String c EmptyString))
      +:+ strftime d format'
  | String c format' => String c (strftime d format')
  end.

(** ** [InputValidator] *)

Definition result : Type := bool * string * pyval.

Definition SUPPORTED_CITIES : gset string :=
  {[ "mumbai"; "delhi"; "bangalore"; "bengaluru"; "hyderabad";
     "chennai"; "kolkata"; "pune"; "ahmedabad"; "jaipur";
     "surat"; "lucknow"; "kanpur"; "nagpur"; "indore";
     "thane"; "bhopal"; "visakhapatnam"; "pimpri-chinchwad";
     "patna"; "gurgaon"; "gurugram"; "noida"; "ghaziabad" ]}.

Definition MIN_BUDGET : Z := 500.
Definition MAX_BUDGET : Z := 50000.

Definition _validate_city (city : pyval) : outcome result :=
  c <- as_str city ;;
  let city_lower := Py.strip (Py.lower c) in
  if String.eqb city_lower "" then
    Ok (false, "City not specified", PyStr "Bangalore")
  else if negb (bool_decide (city_lower ∈ SUPPORTED_CITIES)) then
    Ok (false, "City '" +:+ c +:+ "' not supported. Using Bangalore instead.",
        PyStr "Bangalore")
  else Ok (true, "", city).

Definition _validate_budget (budget : pyval) : outcome result :=
  match py_int budget with
  | Raise ValueError | Raise TypeError =>
      Ok (false, "Invalid budget. Using default ₹2000.", PyInt 2000)
  | Raise e => Raise e
  | Ok budget =>
      if budget <? MIN_BUDGET then
        Ok (false,
            "Budget too low (minimum ₹" +:+ Py.str_of_Z MIN_BUDGET
            +:+ "). Adjusted to ₹" +:+ Py.str_of_Z MIN_BUDGET +:+ ".",
            PyInt MIN_BUDGET)
      else if MAX_BUDGET <? budget then
        Ok (false,
            "Budget too high (maximum ₹" +:+ Py.str_of_Z MAX_BUDGET
            +:+ "). Adjusted to ₹" +:+ Py.str_of_Z MAX_BUDGET +:+ ".",
            PyInt MAX_BUDGET)
      else Ok (true, "", PyInt budget)
  end.

Definition months_short : list string :=
  ["jan"; "feb"; "mar"; "apr"; "may"; "jun"; "jul"; "aug"; "sep"; "oct";
   "nov"; "dec"].

Definition months_long : list string :=
  ["january"; "february"; "march"; "april"; "may"; "june"; "july";
   "august"; "september"; "october"; "november"; "december"].

(** [(st|nd|rd|th)] *)
Definition ordinal : Re.regex := Re.Group "2" (Re.alts ["st"; "nd"; "rd"; "th"]).

(** [(\d{1,2})(st|nd|rd|th)?\s+(...)] over a list of month names. *)
Definition day_month (months : list string) : Re.regex :=
  Re.Cat (Re.Group "1" (Re.Rep Re.Digit 1 2))
    (Re.Cat (Re.Opt ordinal)
      (Re.Cat (Re.Plus Re.Space) (Re.Group "3" (Re.alts months)))).

(** [(\d{lo1,hi1})sep(\d{1,2})sep(\d{lo3,hi3})] *)
Definition numeric (lo1 hi1 : nat) (sep : string) (lo3 hi3 : nat) : Re.regex :=
  Re.Cat (Re.Group "1" (Re.Rep Re.Digit lo1 hi1))
    (Re.Cat (Re.Lit sep)
      (Re.Cat (Re.Group "2" (Re.Rep Re.Digit 1 2))
        (Re.Cat (Re.Lit sep) (Re.Group "3" (Re.Rep Re.Digit lo3 hi3))))).

Definition date_patterns : list (Re.regex * string) :=
  [ (day_month months_short, "%d %b");
    (day_month months_long, "%d %B");
    (numeric 1 2 "/" 4 4, "%d/%m/%Y");
    (numeric 4 4 "-" 1 2, "%Y-%m-%d") ].

Section Validator.

(** [self.current_date] *)
Variable current_date : date.

(** Lines 133-137: the matched text parsed, with the current year when the
    format has none. *)
Definition parse (date_str date_format : string) : outcome date :=
  parsed_date <- Strptime.strptime date_str date_format ;;
  if year parsed_date =? 1900 then replace_year parsed_date (year current_date)
  else Ok parsed_date.

(** Lines 140-148: the date against the current one. *)
Definition check (timing : string) (parsed_date : date) : outcome result :=
  if date_ltb parsed_date current_date then
    if month parsed_date <? month current_date then
      parsed_date <- replace_year parsed_date (year current_date + 1) ;;
      Ok (true,
          "⚠️ Date adjusted to " +:+ strftime parsed_date "%B %d, %Y"
          +:+ " (next year)",
          PyStr (strftime parsed_date "%B %d"))
    else
      Ok (false,
          "❌ Date '" +:+ timing +:+ "' is in the past. Please choose a future date.",
          PyStr "today")
  else Ok (true, "", PyStr timing).

(** The body of the [try] for one pattern that matched [date_str]. *)
Definition attempt (timing date_str date_format : string) : outcome result :=
  let date_str := Re.sub_del ordinal 0 date_str in
  parsed_date <- parse date_str date_format ;;
  check timing parsed_date.

(** The [for] loop over the patterns; [except ValueError: continue]. *)
Fixpoint scan (timing timing_lower : string) (patterns : list (Re.regex * string))
  : outcome result :=
  match patterns with
  | [] => Ok (true, "", PyStr timing)
  | (pattern, date_format) :: rest =>
      match Re.search true pattern timing_lower with
      | Some date_str =>
          match attempt timing date_str date_format with
          | Raise ValueError => scan timing timing_lower rest
          | r => r
          end
      | None => scan timing timing_lower rest
      end
  end.

Definition _validate_date_time (timing : pyval) : outcome result :=
  t <- as_str timing ;;
  let timing_lower := Py.strip (Py.lower t) in
  if bool_decide (timing_lower ∈ ["today"; "tonight"; "this evening"]) then
    Ok (true, "", timing)
  else if bool_decide (timing_lower ∈ ["tomorrow"]) then
    Ok (true, "", timing)
  else if Py.contains "weekend" timing_lower || Py.contains "this week" timing_lower then
    Ok (true, "", timing)
  else scan t timing_lower date_patterns.

Definition _validate_date_type (date_type : pyval) : outcome result :=
  let valid_types :=
    ["romantic"; "casual"; "cozy"; "budget"; "budget-friendly"; "formal"; "fun"] in
  d <- as_str date_type ;;
  let date_type_lower := Py.strip (Py.lower d) in
  if String.eqb date_type_lower "" then
    Ok (false, "Date type not specified. Using 'casual'.", PyStr "casual")
  else if negb (bool_decide (date_type_lower ∈ valid_types)) then
    Ok (true, "", date_type)
  else Ok (true, "", date_type).

(** [if not valid: errors.append(error)] *)
Definition note (errors : list string) (r : result) : list string :=
  if r.1.1 then errors else errors ++ [r.1.2].

Definition validate_plan (plan : gmap string pyval)
  : outcome (bool * string * gmap string pyval) :=
  let corrected_plan := plan in
  let errors := [] in
  r <- _validate_city (get plan "city" (PyStr "")) ;;
  let errors := note errors r in
  let corrected_plan := <["city" := r.2]> corrected_plan in
  r <- _validate_budget (get plan "budget" (PyInt 0)) ;;
  let errors := note errors r in
  let corrected_plan := <["budget" := r.2]> corrected_plan in
  r <- _validate_date_time (get plan "timing" (PyStr "today")) ;;
  let errors := note errors r in
  let corrected_plan := <["timing" := r.2]> corrected_plan in
  r <- _validate_date_type (get plan "date_type" (PyStr "")) ;;
  let errors := note errors r in
  let corrected_plan := <["date_type" := r.2]> corrected_plan in
  match errors with
  | _ :: _ => Ok (false, Py.join " | " errors, corrected_plan)
  | [] => Ok (true, "", corrected_plan)
  end.

End Validator.

(** ** Notions the statements below are about *)

(** The timing is one of the relative phrases of lines 106-113. *)
Definition relative (timing_lower : string) : bool :=
  bool_decide (timing_lower ∈ ["today"; "tonight"; "this evening"])
  || bool_decide (timing_lower ∈ ["tomorrow"])
  || (Py.contains "weekend" timing_lower || Py.contains "this week" timing_lower).

(** The date one pattern extracts from the timing: its leftmost match,
    without ordinal suffixes, parsed with its format. *)
Definition extracted (current_date : date) (timing_lower : string)
    (p : Re.regex * string) : option date :=
  match Re.search true p.1 timing_lower with
  | Some date_str =>
      match parse current_date (Re.sub_del ordinal 0 date_str) p.2 with
      | Ok d => Some d
      | Raise _ => None
      end
  | None => None
  end.

(** The date the parser resolves: that of the first pattern, in priority
    order, that extracts one. *)
Fixpoint first_extracted (current_date : date) (timing_lower : string)
    (patterns : list (Re.regex * string)) : option date :=
  match patterns with
  | [] => None
  | p :: rest =>
      match extracted current_date timing_lower p with
      | Some d => Some d
      | None => first_extracted current_date timing_lower rest
      end
  end.

(** The messages of the fields reported invalid, in the order given. *)
Definition failures (rs : list result) : list string :=
  flat_map (fun r : result => if r.1.1 then [] else [r.1.2]) rs.

(** The plan with the four corrected values written into it. *)
Definition corrected (plan : gmap string pyval) (rc rb rt rd : result)
  : gmap string pyval :=
  <["date_type" := rd.2]> (<["timing" := rt.2]> (<["budget" := rb.2]>
    (<["city" := rc.2]> plan))).

(** The value under [key], when there is one, is a [str]. *)
Definition str_field (plan : gmap string pyval) (key : string) : Prop :=
  match plan !! key with
  | Some (PyStr _) | None => True
  | Some _ => False
  end.

(** No pattern matches the text [strftime] gives for month [m], day [d]. *)
Definition unmatched (m d : Z) : bool :=
  forallb
    (fun p : Re.regex * string =>
       match Re.search true p.1 (Py.strip (Py.lower (strftime (mkdate 1 m d) "%B %d"))) with
       | Some _ => false
       | None => true
       end)
    date_patterns.

(** The three ways the loop can end. *)
Inductive verdict (timing : string) : result -> Prop :=
| Accepted : verdict timing (true, "", PyStr timing)
| Rolled (d : date) :
    valid_date (year d) (month d) (day d) = true ->
    verdict timing
      (true,
       "⚠️ Date adjusted to " +:+ strftime d "%B %d, %Y" +:+ " (next year)",
       PyStr (strftime d "%B %d"))
| Rejected :
    verdict timing
      (false,
       "❌ Date '" +:+ timing +:+ "' is in the past. Please choose a future date.",
       PyStr "today").

(** The plan of the examples: the four fields and nothing else. *)
Definition plan_of (city budget timing date_type : pyval) : gmap string pyval :=
  <["city" := city]> (<["budget" := budget]> (<["timing" := timing]>
    (<["date_type" := date_type]> ∅))).

(** A decidable statement about closed terms, settled by evaluating its
    decision procedure. *)
Ltac decide_by_eval :=
  lazymatch goal with
  | |- ¬ ?P => apply (bool_decide_eq_false_1 P); vm_compute; reflexivity
  | |- ?P => apply (bool_decide_eq_true_1 P); vm_compute; reflexivity
  end.

(** ** [InputValidator.get_supported_cities_list] *)

Definition get_supported_cities_list : string :=
  let cities := Py.sorted (elements SUPPORTED_CITIES) in
  Py.join ", " (map Py.title (take 10 cities)) +:+ ", and more...".

(** ** [ExecutorAgent._parse_timing] ([agents/executor.py]) *)

Definition _parse_timing (timing : pyval) : outcome Z :=
  t <- as_str timing ;;
  let timing_lower := Py.lower t in
  if Py.contains "today" timing_lower || Py.contains "tonight" timing_lower then Ok 0
  else if Py.contains "tomorrow" timing_lower then Ok 1
  else if Py.contains "weekend" timing_lower then Ok 2
  else Ok 0.

(** ** [main]: the plan that goes on to the executor ([main.py], [app.py])

    [is_valid, error_msg, corrected_plan = validator.validate_plan(plan)]
    followed by [if not is_valid: plan = corrected_plan]. *)


(** ** [PlacesAPI] ([tools/places_api.py])

    The HTTP request is a parameter of [search_restaurants], with the
    fields of the request body that vary; the body of a
    response is read at the types the Places API gives its fields, a field
    that is absent being [None]. A coordinate is a decimal of four places,
    held as a number of ten-thousandths of a degree. *)

Module PlacesAPI.

Record place := {
  displayName_text : option string;     (* displayName.text *)
  rating : option pyval;
  priceLevel : option string;
  formattedAddress : option string;
  openNow : option bool;                (* currentOpeningHours.openNow *)
  userRatingCount : option Z
}.

Record response := {
  status_code : Z;
  places : list place                   (* data.get("places", []) *)
}.

Record request := {
  textQuery : string;
  maxResultCount : Z;
  latitude : Z;
  longitude : Z
}.

Record restaurant := {
  name : string;
  rating_ : pyval;                      (* "rating" *)
  price_level : string;
  address : string;
  is_open : option bool;
  total_ratings : Z
}.

Definition lat_coords : gmap string Z :=
  list_to_map
    [ ("mumbai", 190760); ("delhi", 287041); ("bangalore", 129716);
      ("bengaluru", 129716); ("hyderabad", 173850); ("chennai", 130827);
      ("kolkata", 225726); ("pune", 185204); ("ahmedabad", 230225);
      ("jaipur", 269124); ("surat", 211702); ("lucknow", 268467);
      ("kanpur", 264499); ("nagpur", 211458); ("indore", 227196);
      ("thane", 192183); ("bhopal", 232599); ("visakhapatnam", 176868);
      ("pimpri-chinchwad", 186298); ("patna", 255941) ].

Definition lng_coords : gmap string Z :=
  list_to_map
    [ ("mumbai", 728777); ("delhi", 771025); ("bangalore", 775946);
      ("bengaluru", 775946); ("hyderabad", 784867); ("chennai", 802707);
      ("kolkata", 883639); ("pune", 738567); ("ahmedabad", 725714);
      ("jaipur", 757873); ("surat", 728311); ("lucknow", 809462);
      ("kanpur", 803319); ("nagpur", 790882); ("indore", 758577);
      ("thane", 729781); ("bhopal", 774126); ("visakhapatnam", 832185);
      ("pimpri-chinchwad", 737997); ("patna", 851376) ].

Definition _get_city_lat (city : string) : Z :=
  default 129716 (lat_coords !! Py.lower city).

Definition _get_city_lng (city : string) : Z :=
  default 775946 (lng_coords !! Py.lower city).

Definition price_mapping : gmap string string :=
  list_to_map
    [ ("PRICE_LEVEL_INEXPENSIVE", "₹"); ("PRICE_LEVEL_MODERATE", "₹₹");
      ("PRICE_LEVEL_EXPENSIVE", "₹₹₹"); ("PRICE_LEVEL_VERY_EXPENSIVE", "₹₹₹₹");
      ("PRICE_LEVEL_UNSPECIFIED", "Budget") ].

Definition _format_price_level (price_level : string) : string :=
  default "₹₹" (price_mapping !! price_level).

(** Lines 45-52. *)
Definition price_levels (budget : Z) : list string :=
  if budget <? 1000 then ["PRICE_LEVEL_INEXPENSIVE"]
  else if budget <? 2000 then ["PRICE_LEVEL_INEXPENSIVE"; "PRICE_LEVEL_MODERATE"]
  else if budget <? 4000 then
    ["PRICE_LEVEL_INEXPENSIVE"; "PRICE_LEVEL_MODERATE"; "PRICE_LEVEL_EXPENSIVE"]
  else
    ["PRICE_LEVEL_INEXPENSIVE"; "PRICE_LEVEL_MODERATE"; "PRICE_LEVEL_EXPENSIVE";
     "PRICE_LEVEL_VERY_EXPENSIVE"].

Definition keywords : gmap string string :=
  list_to_map
    [ ("romantic", "romantic fine dining restaurant");
      ("casual", "casual restaurant cafe");
      ("cozy", "cozy cafe restaurant");
      ("budget", "budget friendly restaurant");
      ("budget-friendly", "budget friendly restaurant") ].

(** Lines 62-65. *)
Definition text_query (city date_type : string) : string :=
  let search_keyword := default "restaurant" (keywords !! Py.lower date_type) in
  search_keyword +:+ " in " +:+ city.

(** A number as mantissa and binary exponent: [isinstance(v, (int, float))],
    which holds of a bool too. *)
Definition number (v : pyval) : option (Z * Z) :=
  match v with
  | PyBool b => Some (if b then 1 else 0, 0)
  | PyInt z => Some (z, 0)
  | PyFloat m e => Some (m, e)
  | _ => None
  end.

(** [a < b] and [a == b] on numbers, at their common exponent. *)
Definition scaled (a : Z * Z) (e : Z) : Z := a.1 * 2 ^ (a.2 - e).

Definition num_ltb (a b : Z * Z) : bool :=
  let e := Z.min a.2 b.2 in scaled a e <? scaled b e.

Definition num_eqb (a b : Z * Z) : bool :=
  let e := Z.min a.2 b.2 in scaled a e =? scaled b e.

(** The sort key of line 121. *)
Definition key (x : restaurant) : (Z * Z) * Z :=
  (default (0, 0) (number (rating_ x)), total_ratings x).

(** [k1 < k2] on the key tuples. *)
Definition key_ltb (k1 k2 : (Z * Z) * Z) : bool :=
  if num_eqb k1.1 k2.1 then k1.2 <? k2.2 else num_ltb k1.1 k2.1.

(** [l.sort(key=key, reverse=True)]: descending, items of equal key in
    their original order. *)
Fixpoint insert_desc (x : restaurant) (l : list restaurant) : list restaurant :=
  match l with
  | [] => [x]
  | y :: l' => if key_ltb (key x) (key y) then y :: insert_desc x l' else x :: l
  end.

Definition sort_desc (l : list restaurant) : list restaurant :=
  fold_right insert_desc [] l.

(** Lines 105-117: the restaurant of a place, when its price level passes. *)
Definition restaurant_of (price_levels : list string) (p : place) : option restaurant :=
  let place_price_level := default "PRICE_LEVEL_MODERATE" (priceLevel p) in
  if bool_decide (place_price_level ∈ price_levels)
     || String.eqb place_price_level "PRICE_LEVEL_UNSPECIFIED"
  then
    Some {| name := default "Unknown" (displayName_text p);
            rating_ := default (PyStr "N/A") (rating p);
            price_level := _format_price_level place_price_level;
            address := default "Address not available" (formattedAddress p);
            is_open := openNow p;
            total_ratings := default 0 (userRatingCount p) |}
  else None.

Definition search_restaurants (post : request -> response)
    (city : string) (budget : Z) (date_type : string) (max_results : Z)
  : list restaurant :=
  let price_levels := price_levels budget in
  let request_body :=
    {| textQuery := text_query city date_type;
       maxResultCount := max_results;
       latitude := _get_city_lat city;
       longitude := _get_city_lng city |} in
  let response := post request_body in
  if negb (status_code response =? 200) then []
  else
    let restaurants := omap (restaurant_of price_levels) (places response) in
    take 5 (sort_desc restaurants).

End PlacesAPI.

(** ** [VerifierAgent._filter_restaurants] ([agents/verifier.py]) *)

(** [bool(v)] *)
Definition truthy (v : pyval) : bool :=
  match v with
  | PyNone => false
  | PyBool b => b
  | PyInt z => negb (z =? 0)
  | PyFloat m _ => negb (m =? 0)
  | PyStr s => negb (String.eqb s "")
  end.

(** [weather] is [None] or a dict; [weather.get("will_rain")] is [None]
    when the key is absent. *)
Definition _filter_restaurants {A : Type} (restaurants : list A)
    (weather : option (gmap string pyval)) (special_requirements : pyval)
  : outcome (list A) :=
  match restaurants with
  | [] => Ok []
  | _ =>
      let filtered := restaurants in
      _ <- match weather with
           | Some w =>
               if bool_decide (w = ∅) then Ok false
               else if truthy (get w "will_rain" PyNone) then Ok true
               else s <- as_str special_requirements ;;
                    Ok (Py.contains "indoor" (Py.lower s))
           | None => Ok false
           end ;;
      Ok (take 5 filtered)
  end.

(** [_parse_timing] reads the text [strftime] gives for month [m], day [d]
    as 0 days ahead. *)
Definition plain (m d : Z) : bool :=
  match _parse_timing (PyStr (strftime (mkdate 1 m d) "%B %d")) with
  | Ok 0 => true
  | _ => false
  end.

(** No white-space character in [s]. *)
Fixpoint spaceless (s : string) : bool :=
  match s with
  | EmptyString => true
  | String c s' => negb (Py.is_space c) && spaceless s'
  end.

(** In the order of the sort, [x] does not come after [y]: the key of [x]
    is not less than the key of [y]. *)
Definition ranks_no_lower (x y : PlacesAPI.restaurant) : Prop :=
  PlacesAPI.key_ltb (PlacesAPI.key x) (PlacesAPI.key y) = false.

(** ** [PlannerAgent.extract_intent] ([agents/planner.py])

    The answer of the model, parsed as JSON, is the argument: [Raise] when
    the request or the parsing raised, or the answer is not an object. *)

Definition default_plan : gmap string pyval :=
  <["city" := PyStr "Bangalore"]> (<["budget" := PyInt 2000]>
  (<["date_type" := PyStr "casual"]> (<["timing" := PyStr "today"]>
  (<["needs_weather" := PyBool true]> (<["needs_restaurants" := PyBool true]>
  (<["special_requirements" := PyStr "none"]> ∅)))))).

Definition extract_intent (extracted_data : outcome (gmap string pyval))
  : gmap string pyval :=
  match extracted_data with
  | Ok extracted_data =>
      match py_int (get extracted_data "budget" (PyInt 2000)) with
      | Ok budget =>
          <["city" := get extracted_data "city" (PyStr "Bangalore")]>
          (<["budget" := PyInt budget]>
          (<["date_type" := get extracted_data "date_type" (PyStr "casual")]>
          (<["timing" := get extracted_data "timing" (PyStr "today")]>
          (<["needs_weather" := get extracted_data "needs_weather" (PyBool true)]>
          (<["needs_restaurants" :=
               get extracted_data "needs_restaurants" (PyBool true)]>
          (<["special_requirements" :=
               get extracted_data "special_requirements" (PyStr "none")]> ∅))))))
      | Raise _ => default_plan
      end
  | Raise _ => default_plan
  end.

(** * Properties *)

(** ** What the runtime functions can raise *)

Lemma py_int_raises (v : pyval) (e : exn) :
  py_int v = Raise e -> e = ValueError \/ e = TypeError.
Proof.
  destruct v as [ | b | z | m x | s]; simpl; try discriminate.
  - intros [= <-]. now right.
  - destruct (int_of_str s); [discriminate | intros [= <-]; now left].
Qed.

Lemma datetime_raises (y m d : Z) (e : exn) :
  datetime y m d = Raise e -> e = ValueError.
Proof.
  unfold datetime. destruct (valid_date y m d); [discriminate | now intros [= <-]].
Qed.

Lemma datetime_valid (y m d : Z) (p : date) :
  datetime y m d = Ok p -> p = mkdate y m d /\ valid_date y m d = true.
Proof.
  unfold datetime. destruct (valid_date y m d); [ | discriminate].
  now intros [= <-].
Qed.

Lemma strptime_raises (data_string format : string) (e : exn) :
  Strptime.strptime data_string format = Raise e -> e = ValueError.
Proof.
  unfold Strptime.strptime.
  repeat match goal with
         | |- context [match ?x with _ => _ end] => destruct x
         end;
    try (now intros [= <-]); apply datetime_raises.
Qed.

Section ValidatorFacts.

Variable current_date : date.

Lemma parse_raises (date_str date_format : string) (e : exn) :
  parse current_date date_str date_format = Raise e -> e = ValueError.
Proof.
  unfold parse, bind.
  destruct (Strptime.strptime date_str date_format) as [p | e'] eqn:E.
  - destruct (year p =? 1900); [apply datetime_raises | discriminate].
  - intros [= <-]. eapply strptime_raises, E.
Qed.

Lemma check_raises (timing : string) (parsed_date : date) (e : exn) :
  check current_date timing parsed_date = Raise e -> e = ValueError.
Proof.
  unfold check, bind, replace_year.
  destruct (date_ltb parsed_date current_date); [ | discriminate].
  destruct (month parsed_date <? month current_date); [ | discriminate].
  destruct (datetime _ _ _) eqn:E; [discriminate | ].
  intros [= <-]. eapply datetime_raises, E.
Qed.

Lemma attempt_raises (timing date_str date_format : string) (e : exn) :
  attempt current_date timing date_str date_format = Raise e -> e = ValueError.
Proof.
  unfold attempt, bind.
  destruct (parse _ _ _) as [p | e'] eqn:E.
  - apply check_raises.
  - intros [= <-]. eapply parse_raises, E.
Qed.

(** One turn of the loop: the pattern either settles the answer or the loop
    goes on to the next one. *)
Lemma scan_step (timing timing_lower : string) (pattern : Re.regex)
    (date_format : string) (rest : list (Re.regex * string)) :
  scan current_date timing timing_lower ((pattern, date_format) :: rest) =
  match Re.search true pattern timing_lower with
  | Some date_str =>
      match attempt current_date timing date_str date_format with
      | Ok r => Ok r
      | Raise _ => scan current_date timing timing_lower rest
      end
  | None => scan current_date timing timing_lower rest
  end.
Proof.
  simpl. destruct (Re.search true pattern timing_lower) as [ds | ]; [ | reflexivity].
  destruct (attempt _ _ _ _) as [r | e] eqn:E; [reflexivity | ].
  apply attempt_raises in E. now subst e.
Qed.

Lemma check_verdict (timing : string) (parsed_date : date) (r : result) :
  check current_date timing parsed_date = Ok r -> verdict timing r.
Proof.
  unfold check, bind, replace_year.
  destruct (date_ltb parsed_date current_date); [ | intros [= <-]; constructor].
  destruct (month parsed_date <? month current_date); [ | intros [= <-]; constructor].
  destruct (datetime _ _ _) as [d | ] eqn:E; [ | discriminate].
  apply datetime_valid in E as [-> E]. intros [= <-].
  exact (Rolled timing (mkdate _ _ _) E).
Qed.

Lemma attempt_verdict (timing date_str date_format : string) (r : result) :
  attempt current_date timing date_str date_format = Ok r -> verdict timing r.
Proof.
  unfold attempt, bind. destruct (parse _ _ _); [apply check_verdict | discriminate].
Qed.

(** The loop always returns, with one of the three verdicts. *)
Lemma scan_verdict (timing timing_lower : string) (patterns : list (Re.regex * string)) :
  exists r, scan current_date timing timing_lower patterns = Ok r /\ verdict timing r.
Proof.
  induction patterns as [ | [pattern date_format] rest IH].
  - eexists; split; [reflexivity | constructor].
  - rewrite scan_step.
    destruct (Re.search true pattern timing_lower) as [ds | ]; [ | exact IH].
    destruct (attempt _ _ _ _) as [r | e] eqn:E; [ | exact IH].
    exists r; split; [reflexivity | eapply attempt_verdict, E].
Qed.

End ValidatorFacts.

(** ** The field validators *)

Lemma empty_not_supported : "" ∉ SUPPORTED_CITIES.
Proof. decide_by_eval. Qed.







(** ** The timing validator *)

Section Timing.

Variable current_date : date.

Lemma validate_date_time_relative (timing : string) :
  relative (Py.strip (Py.lower timing)) = true ->
  _validate_date_time current_date (PyStr timing) = Ok (true, "", PyStr timing).
Proof.
  unfold relative, _validate_date_time. cbn [bind as_str].
  destruct (bool_decide (_ ∈ ["today"; "tonight"; "this evening"])); [reflexivity | ].
  destruct (bool_decide (_ ∈ ["tomorrow"])); [reflexivity | ].
  cbn [orb]. now intros ->.
Qed.

Lemma validate_date_time_scan (timing : string) :
  relative (Py.strip (Py.lower timing)) = false ->
  _validate_date_time current_date (PyStr timing) =
  scan current_date timing (Py.strip (Py.lower timing)) date_patterns.
Proof.
  unfold relative, _validate_date_time. cbn [bind as_str].
  destruct (bool_decide (_ ∈ ["today"; "tonight"; "this evening"])); [discriminate | ].
  destruct (bool_decide (_ ∈ ["tomorrow"])); [discriminate | ].
  cbn [orb]. now intros ->.
Qed.

Lemma attempt_extracted (timing timing_lower date_str : string)
    (pattern : Re.regex) (date_format : string) :
  Re.search true pattern timing_lower = Some date_str ->
  attempt current_date timing date_str date_format =
  match extracted current_date timing_lower (pattern, date_format) with
  | Some d => check current_date timing d
  | None => Raise ValueError
  end.
Proof.
  intros E. unfold extracted, attempt, bind. cbn [fst snd]. rewrite E.
  destruct (parse _ _ _) as [d | e] eqn:P; [reflexivity | ].
  apply parse_raises in P. now subst e.
Qed.

(** No pattern extracts a date: the loop runs to its end. *)
Lemma scan_nothing (timing timing_lower : string) (patterns : list (Re.regex * string)) :
  Forall (fun p => extracted current_date timing_lower p = None) patterns ->
  scan current_date timing timing_lower patterns = Ok (true, "", PyStr timing).
Proof.
  induction 1 as [ | [pattern date_format] rest Hp _ IH]; [reflexivity | ].
  rewrite scan_step.
  destruct (Re.search true pattern timing_lower) as [ds | ] eqn:E; [ | exact IH].
  now rewrite (attempt_extracted _ _ _ _ _ E), Hp.
Qed.


End Timing.





(** C2, at 29 February. On 15 June 2024 the timing "29/02/2024" resolves to
    29 February 2024, which is before the current date and in an earlier
    month; 29 February 2025 does not exist, [replace] raises, the loop
    takes that for a parse error and the timing is accepted as it stands,
    with no message. *)
Theorem leap_day_not_rolled_forward :
  let current_date := mkdate 2024 6 15 in
  let d := mkdate 2024 2 29 in
  relative "29/02/2024" = false
  /\ first_extracted current_date "29/02/2024" date_patterns = Some d
  /\ date_ltb d current_date = true
  /\ month d < month current_date
  /\ replace_year d (year current_date + 1) = Raise ValueError
  /\ _validate_date_time current_date (PyStr "29/02/2024") =
     Ok (true, "", PyStr "29/02/2024").
Proof. vm_compute. repeat split. Qed.

(** ** The plan validator: how the four fields are put together *)

Section Plan.

Variable current_date : date.

Lemma validate_plan_assembled (plan : gmap string pyval) (rc rb rt rd : result) :
  _validate_city (get plan "city" (PyStr "")) = Ok rc ->
  _validate_budget (get plan "budget" (PyInt 0)) = Ok rb ->
  _validate_date_time current_date (get plan "timing" (PyStr "today")) = Ok rt ->
  _validate_date_type (get plan "date_type" (PyStr "")) = Ok rd ->
  validate_plan current_date plan =
  Ok (rc.1.1 && rb.1.1 && rt.1.1 && rd.1.1,
      Py.join " | " (failures [rc; rb; rt; rd]),
      corrected plan rc rb rt rd).
Proof.
  intros Hc Hb Ht Hd. unfold validate_plan. rewrite Hc, Hb, Ht, Hd.
  cbn [bind]. unfold note, failures, corrected.
  destruct rc as [[[] mc] vc], rb as [[[] mb] vb], rt as [[[] mt] vt],
    rd as [[[] md] vd]; reflexivity.
Qed.

Lemma validate_plan_fields (plan : gmap string pyval) (all_valid : bool)
    (message : string) (P : gmap string pyval) :
  validate_plan current_date plan = Ok (all_valid, message, P) ->
  exists rc rb rt rd,
    _validate_city (get plan "city" (PyStr "")) = Ok rc
    /\ _validate_budget (get plan "budget" (PyInt 0)) = Ok rb
    /\ _validate_date_time current_date (get plan "timing" (PyStr "today")) = Ok rt
    /\ _validate_date_type (get plan "date_type" (PyStr "")) = Ok rd
    /\ P = corrected plan rc rb rt rd.
Proof.
  intros H.
  destruct (_validate_city _) as [rc | ] eqn:Hc;
    [ | unfold validate_plan in H; rewrite Hc in H; discriminate].
  destruct (_validate_budget _) as [rb | ] eqn:Hb;
    [ | unfold validate_plan in H; rewrite Hc, Hb in H; discriminate].
  destruct (_validate_date_time _ _) as [rt | ] eqn:Ht;
    [ | unfold validate_plan in H; rewrite Hc, Hb, Ht in H; discriminate].
  destruct (_validate_date_type _) as [rd | ] eqn:Hd;
    [ | unfold validate_plan in H; rewrite Hc, Hb, Ht, Hd in H; discriminate].
  rewrite (validate_plan_assembled plan rc rb rt rd Hc Hb Ht Hd) in H.
  injection H as _ _ <-. now exists rc, rb, rt, rd.
Qed.

Lemma corrected_lookup (plan : gmap string pyval) (rc rb rt rd : result) :
  corrected plan rc rb rt rd !! "city" = Some rc.2
  /\ corrected plan rc rb rt rd !! "budget" = Some rb.2
  /\ corrected plan rc rb rt rd !! "timing" = Some rt.2
  /\ corrected plan rc rb rt rd !! "date_type" = Some rd.2.
Proof.
  unfold corrected. repeat split.
  - rewrite !lookup_insert_ne by discriminate. apply lookup_insert_eq.
  - rewrite !lookup_insert_ne by discriminate. apply lookup_insert_eq.
  - rewrite lookup_insert_ne by discriminate. apply lookup_insert_eq.
  - apply lookup_insert_eq.
Qed.

End Plan.

(** ** What each field validator hands back *)

Lemma validate_budget_in_range (z : Z) :
  500 <= z <= 50000 -> _validate_budget (PyInt z) = Ok (true, "", PyInt z).
Proof.
  intros [Hlo Hhi]. unfold _validate_budget, MIN_BUDGET, MAX_BUDGET. cbn [py_int].
  destruct (Z.ltb_spec z 500); [lia | ].
  destruct (Z.ltb_spec 50000 z); [lia | reflexivity].
Qed.

(** The budget validator returns on every value, with an int in range. *)
Lemma validate_budget_returns (budget : pyval) :
  exists (valid : bool) (message : string) (z : Z),
    _validate_budget budget = Ok (valid, message, PyInt z) /\ 500 <= z <= 50000.
Proof.
  unfold _validate_budget, MIN_BUDGET, MAX_BUDGET.
  destruct (py_int budget) as [z | e] eqn:E.
  - destruct (Z.ltb_spec z 500); [do 3 eexists; split; [reflexivity | lia] | ].
    destruct (Z.ltb_spec 50000 z); do 3 eexists; (split; [reflexivity | lia]).
  - destruct (py_int_raises _ _ E) as [-> | ->];
      do 3 eexists; (split; [reflexivity | lia]).
Qed.

(** The city validator returns on every [str], with the default city or a
    city of the allow-list. *)
Lemma validate_city_returns (city : string) :
  exists (valid : bool) (message c : string),
    _validate_city (PyStr city) = Ok (valid, message, PyStr c)
    /\ (c = "Bangalore" \/ Py.strip (Py.lower c) ∈ SUPPORTED_CITIES).
Proof.
  unfold _validate_city. cbn [bind as_str].
  destruct (String.eqb _ ""); [do 3 eexists; split; [reflexivity | now left] | ].
  destruct (bool_decide _) eqn:E; cbn [negb].
  - apply bool_decide_eq_true_1 in E.
    do 3 eexists; split; [reflexivity | now right].
  - do 3 eexists; split; [reflexivity | now left].
Qed.

(** The date-type validator returns on every [str], with a value that is
    not blank. *)
Lemma validate_date_type_returns (date_type : string) :
  exists (valid : bool) (message d : string),
    _validate_date_type (PyStr date_type) = Ok (valid, message, PyStr d)
    /\ Py.strip (Py.lower d) <> "".
Proof.
  unfold _validate_date_type. cbn [bind as_str].
  destruct (String.eqb_spec (Py.strip (Py.lower date_type)) "") as [E | E].
  - do 3 eexists; split; [reflexivity | vm_compute; discriminate].
  - destruct (negb _); do 3 eexists; (split; [reflexivity | exact E]).
Qed.

Lemma append_space_nonempty (a b : string) : a +:+ String " " b <> "".
Proof. now destruct a. Qed.

Lemma strftime_B_d (d : date) :
  strftime d "%B %d" =
  nth (Z.to_nat (month d - 1)) month_name "" +:+ String " " (pad2 (day d) +:+ "").
Proof. reflexivity. Qed.

(** The timing validator returns on every [str]; what it returns is empty
    only when the timing itself was. *)
Lemma validate_date_time_returns (current_date : date) (timing : string) :
  exists (valid : bool) (message t : string),
    _validate_date_time current_date (PyStr timing) = Ok (valid, message, PyStr t)
    /\ (timing <> "" -> t <> "").
Proof.
  destruct (relative (Py.strip (Py.lower timing))) eqn:R.
  - rewrite validate_date_time_relative by exact R.
    do 3 eexists; split; [reflexivity | trivial].
  - rewrite validate_date_time_scan by exact R.
    destruct (scan_verdict current_date timing (Py.strip (Py.lower timing)) date_patterns)
      as (r & -> & [ | d _ | ]);
      do 3 eexists; (split; [reflexivity | ]); trivial.
    + intros _. rewrite strftime_B_d. apply append_space_nonempty.
    + discriminate.
Qed.

(** ** Validating a corrected value again *)

Lemma validate_city_again (city : pyval) (r : result) :
  _validate_city city = Ok r -> _validate_city r.2 = Ok (true, "", r.2).
Proof.
  destruct city as [ | | | | c]; try discriminate.
  intros H. generalize H. unfold _validate_city at 1. cbn [bind as_str].
  destruct (String.eqb _ ""); [intros [= <-]; vm_compute; reflexivity | ].
  destruct (negb _); [intros [= <-]; vm_compute; reflexivity | ].
  intros [= <-]. exact H.
Qed.

Lemma validate_budget_again (budget : pyval) (r : result) :
  _validate_budget budget = Ok r -> _validate_budget r.2 = Ok (true, "", r.2).
Proof.
  destruct (validate_budget_returns budget) as (valid & message & z & -> & Hz).
  intros [= <-]. now apply validate_budget_in_range.
Qed.

Lemma validate_date_type_again (date_type : pyval) (r : result) :
  _validate_date_type date_type = Ok r -> _validate_date_type r.2 = Ok (true, "", r.2).
Proof.
  destruct date_type as [ | | | | d]; try discriminate.
  intros H. generalize H. unfold _validate_date_type at 1. cbn [bind as_str].
  destruct (String.eqb _ ""); [intros [= <-]; vm_compute; reflexivity | ].
  destruct (negb _); intros [= <-]; exact H.
Qed.

Lemma unmatched_all :
  forallb (fun m => forallb (unmatched m) (seqZ 1 31)) (seqZ 1 12) = true.
Proof. vm_compute. reflexivity. Qed.

Lemma valid_date_bounds (y m d : Z) :
  valid_date y m d = true -> 1 <= m <= 12 /\ 1 <= d <= 31.
Proof.
  unfold valid_date. rewrite !andb_true_iff, !Z.leb_le.
  intros [[[[[_ _] Hm1] Hm2] Hd1] Hd2].
  assert (days_in_month y m <= 31);
    [ | lia].
  unfold days_in_month.
  repeat match goal with
         | |- context [match ?x with _ => _ end] => destruct x
         end; lia.
Qed.

(** The text of a rolled date is matched by no pattern, so it is accepted
    as it stands. *)
Lemma rolled_text_accepted (current_date d : date) :
  valid_date (year d) (month d) (day d) = true ->
  _validate_date_time current_date (PyStr (strftime d "%B %d")) =
  Ok (true, "", PyStr (strftime d "%B %d")).
Proof.
  intros V. apply valid_date_bounds in V as [Hm Hd].
  pose proof unmatched_all as A.
  rewrite forallb_forall in A. specialize (A (month d)).
  rewrite forallb_forall in A. specialize (fun H => A H (day d)).
  assert (U : unmatched (month d) (day d) = true).
  { apply A; apply list_elem_of_In, elem_of_seqZ; lia. }
  clear A. unfold unmatched in U. rewrite forallb_forall in U.
  change (strftime (mkdate 1 (month d) (day d)) "%B %d") with (strftime d "%B %d") in U.
  destruct (relative (Py.strip (Py.lower (strftime d "%B %d")))) eqn:R.
  - now apply validate_date_time_relative.
  - rewrite validate_date_time_scan by exact R. apply scan_nothing.
    apply Forall_forall. intros p Hp. apply list_elem_of_In in Hp. specialize (U p Hp).
    unfold extracted. now destruct (Re.search true p.1 _).
Qed.

Lemma validate_date_time_again (current_date : date) (timing : pyval) (r : result) :
  _validate_date_time current_date timing = Ok r ->
  _validate_date_time current_date r.2 = Ok (true, "", r.2).
Proof.
  destruct timing as [ | | | | t]; try discriminate.
  destruct (relative (Py.strip (Py.lower t))) eqn:R.
  - intros H. generalize H. rewrite validate_date_time_relative by exact R.
    intros [= <-]. exact H.
  - intros H. generalize H. rewrite validate_date_time_scan by exact R.
    destruct (scan_verdict current_date t (Py.strip (Py.lower t)) date_patterns)
      as (r' & -> & V).
    intros [= <-]. destruct V as [ | d V | ]; cbn [snd].
    + exact H.
    + now apply rolled_text_accepted.
    + now apply validate_date_time_relative.
Qed.

(** ** The plan validator *)








Lemma get_corrected (plan : gmap string pyval) (rc rb rt rd : result) :
  let P := corrected plan rc rb rt rd in
  get P "city" (PyStr "") = rc.2
  /\ get P "budget" (PyInt 0) = rb.2
  /\ get P "timing" (PyStr "today") = rt.2
  /\ get P "date_type" (PyStr "") = rd.2.
Proof.
  intros P. subst P. unfold get.
  destruct (corrected_lookup plan rc rb rt rd) as (-> & -> & -> & ->).
  now repeat split.
Qed.

Lemma insert_present (P : gmap string pyval) (key : string) (v : pyval) :
  P !! key = Some v -> <[key := v]> P = P.
Proof. apply insert_id. Qed.

(** C9. Idempotence: the corrected plan of a validation is valid, draws no
    diagnostic and is its own corrected plan, under the same current date. *)
Theorem validate_plan_idempotent (current_date : date) (plan : gmap string pyval)
    (all_valid : bool) (message : string) (P : gmap string pyval) :
  validate_plan current_date plan = Ok (all_valid, message, P) ->
  validate_plan current_date P = Ok (true, "", P).
Proof.
  intros H.
  apply validate_plan_fields in H as (rc & rb & rt & rd & Hc & Hb & Ht & Hd & ->).
  destruct (get_corrected plan rc rb rt rd) as (Gc & Gb & Gt & Gd).
  destruct (corrected_lookup plan rc rb rt rd) as (Lc & Lb & Lt & Ld).
  apply validate_city_again in Hc. apply validate_budget_again in Hb.
  apply validate_date_time_again in Ht. apply validate_date_type_again in Hd.
  rewrite <- Gc in Hc at 1. rewrite <- Gb in Hb at 1.
  rewrite <- Gt in Ht at 1. rewrite <- Gd in Hd at 1.
  rewrite (validate_plan_assembled current_date _ _ _ _ _ Hc Hb Ht Hd).
  cbn [fst snd andb failures flat_map Py.join app].
  unfold corrected at 1. cbn [snd].
  now rewrite (insert_present _ _ _ Lc), (insert_present _ _ _ Lb),
    (insert_present _ _ _ Lt), (insert_present _ _ _ Ld).
Qed.

Lemma validate_plan_idempotent_witness :
  validate_plan (mkdate 2024 6 15)
    (plan_of (PyStr "Bangalore") (PyInt 2000) (PyStr "January 10") (PyStr "casual")) =
  Ok (true, "",
      plan_of (PyStr "Bangalore") (PyInt 2000) (PyStr "January 10") (PyStr "casual")).
Proof.
  apply (validate_plan_idempotent (mkdate 2024 6 15)
           (plan_of (PyStr "Atlantis") (PyStr "n/a") (PyStr "10th January") (PyStr " "))
           false
           "City 'Atlantis' not supported. Using Bangalore instead. | Invalid budget. Using default ₹2000. | Date type not specified. Using 'casual'.").
  vm_compute. reflexivity.
Defined.



(** ** The roll to next year, where it works *)







(** * Further properties of the validator *)

(** ** The timing validator on dates that are not past *)



Lemma validate_date_time_verdict (current_date : date) (timing : string) :
  exists r, _validate_date_time current_date (PyStr timing) = Ok r /\ verdict timing r.
Proof.
  destruct (relative (Py.strip (Py.lower timing))) eqn:R.
  - rewrite validate_date_time_relative by exact R.
    eexists; split; [reflexivity | constructor].
  - rewrite validate_date_time_scan by exact R. apply scan_verdict.
Qed.

(** X3. Whatever the timing, the validator answers in one of three ways: the
    timing as given and valid; the month and day of a date that exists,
    valid, with the note about next year; or "today", invalid, with the note
    that the timing given is in the past. *)
Theorem validate_date_time_outcomes (current_date : date) (timing : string) :
  _validate_date_time current_date (PyStr timing) = Ok (true, "", PyStr timing)
  \/ (exists d : date,
        valid_date (year d) (month d) (day d) = true
        /\ _validate_date_time current_date (PyStr timing) =
           Ok (true,
               "⚠️ Date adjusted to " +:+ strftime d "%B %d, %Y" +:+ " (next year)",
               PyStr (strftime d "%B %d")))
  \/ _validate_date_time current_date (PyStr timing) =
     Ok (false,
         "❌ Date '" +:+ timing +:+ "' is in the past. Please choose a future date.",
         PyStr "today").
Proof.
  destruct (validate_date_time_verdict current_date timing) as (r & -> & [ | d V | ]).
  - now left.
  - right; left. now exists d.
  - now right; right.
Qed.

(** ** A field reported invalid is a field changed *)

Lemma validate_city_invalid_changes (city : pyval) (message : string) (c : pyval) :
  _validate_city city = Ok (false, message, c) -> c <> city.
Proof.
  destruct city as [ | | | | s]; try discriminate.
  unfold _validate_city. cbn [bind as_str].
  destruct (String.eqb_spec (Py.strip (Py.lower s)) "") as [E | _].
  - intros [= _ <-] [= <-]. vm_compute in E. discriminate.
  - destruct (bool_decide _) eqn:B; cbn [negb]; [discriminate | ].
    intros [= _ <-] [= <-]. vm_compute in B. discriminate.
Qed.

Lemma validate_budget_invalid_changes (budget : pyval) (message : string) (b : pyval) :
  _validate_budget budget = Ok (false, message, b) -> b <> budget.
Proof.
  unfold _validate_budget, MIN_BUDGET, MAX_BUDGET.
  destruct (py_int budget) as [z | e] eqn:E.
  - destruct (Z.ltb_spec z 500).
    + intros [= _ <-] <-. cbn in E. injection E as <-. lia.
    + destruct (Z.ltb_spec 50000 z); [ | discriminate].
      intros [= _ <-] <-. cbn in E. injection E as <-. lia.
  - destruct (py_int_raises _ _ E) as [-> | ->];
      intros [= _ <-] <-; discriminate.
Qed.

Lemma validate_date_time_invalid_changes (current_date : date) (timing : pyval)
    (message : string) (t : pyval) :
  _validate_date_time current_date timing = Ok (false, message, t) -> t <> timing.
Proof.
  destruct timing as [ | | | | s]; try discriminate.
  intros H.
  destruct (validate_date_time_verdict current_date s) as (r & E & V).
  rewrite E in H. destruct V as [ | d _ | ]; try discriminate.
  injection H as _ <-. intros [= <-].
  now rewrite (validate_date_time_relative current_date "today" eq_refl) in E.
Qed.

Lemma validate_date_type_invalid_changes (date_type : pyval) (message : string)
    (d : pyval) :
  _validate_date_type date_type = Ok (false, message, d) -> d <> date_type.
Proof.
  destruct date_type as [ | | | | s]; try discriminate.
  unfold _validate_date_type. cbn [bind as_str].
  destruct (String.eqb_spec (Py.strip (Py.lower s)) "") as [E | _].
  - intros [= _ <-] [= <-]. vm_compute in E. discriminate.
  - now destruct (negb _).
Qed.

Lemma get_changed (plan P : gmap string pyval) (key : string) (default v : pyval) :
  P !! key = Some v -> v <> get plan key default -> P !! key <> plan !! key.
Proof.
  unfold get. intros -> Hne E. destruct (plan !! key) as [w | ]; [ | discriminate].
  injection E as ->. now apply Hne.
Qed.

(** X4. Whenever [validate_plan] reports a plan as not all valid, the corrected
    plan differs from the plan given under one of the four keys: a
    diagnostic never comes without a correction. *)
Theorem invalid_plan_is_changed (current_date : date) (plan : gmap string pyval)
    (message : string) (P : gmap string pyval) :
  validate_plan current_date plan = Ok (false, message, P) ->
  exists key,
    key ∈ ["city"; "budget"; "timing"; "date_type"] /\ P !! key <> plan !! key.
Proof.
  intros H.
  destruct (validate_plan_fields current_date plan _ _ _ H)
    as (rc & rb & rt & rd & Hc & Hb & Ht & Hd & ->).
  rewrite (validate_plan_assembled current_date plan rc rb rt rd Hc Hb Ht Hd) in H.
  injection H as Hv _.
  destruct (corrected_lookup plan rc rb rt rd) as (Lc & Lb & Lt & Ld).
  destruct rc as [[vc mc] c], rb as [[vb mb] b], rt as [[vt mt] t], rd as [[vd md] d].
  cbn [fst snd] in *.
  destruct vc.
  2: { exists "city". split; [set_solver | ].
       eapply get_changed; [exact Lc | eapply validate_city_invalid_changes, Hc]. }
  destruct vb.
  2: { exists "budget". split; [set_solver | ].
       eapply get_changed; [exact Lb | eapply validate_budget_invalid_changes, Hb]. }
  destruct vt.
  2: { exists "timing". split; [set_solver | ].
       eapply get_changed; [exact Lt | eapply validate_date_time_invalid_changes, Ht]. }
  destruct vd; [discriminate | ].
  exists "date_type". split; [set_solver | ].
  eapply get_changed; [exact Ld | eapply validate_date_type_invalid_changes, Hd].
Qed.

Lemma invalid_plan_is_changed_witness :
  exists key,
    key ∈ ["city"; "budget"; "timing"; "date_type"]
    /\ plan_of (PyStr "Pune") (PyInt 500) (PyStr "today") (PyStr "fun") !! key
       <> plan_of (PyStr "Pune") (PyInt 120) (PyStr "today") (PyStr "fun") !! key.
Proof.
  apply (invalid_plan_is_changed (mkdate 2024 6 15)
           (plan_of (PyStr "Pune") (PyInt 120) (PyStr "today") (PyStr "fun"))
           "Budget too low (minimum ₹500). Adjusted to ₹500.").
  vm_compute. reflexivity.
Defined.

(** ** When [validate_plan] raises *)

Lemma not_str_raises (v : pyval) :
  (forall s, v <> PyStr s) ->
  _validate_city v = Raise AttributeError
  /\ (forall current_date, _validate_date_time current_date v = Raise AttributeError)
  /\ _validate_date_type v = Raise AttributeError.
Proof.
  intros H. destruct v as [ | | | | s]; try (now repeat split).
  now destruct (H s).
Qed.

Lemma str_field_cases (plan : gmap string pyval) (key default : string) :
  (str_field plan key /\ exists s, get plan key (PyStr default) = PyStr s)
  \/ (~ str_field plan key /\ forall s, get plan key (PyStr default) <> PyStr s).
Proof.
  unfold str_field, get.
  destruct (plan !! key) as [[ | | | | s] | ];
    try (right; split; [tauto | discriminate]).
  - left. split; [exact I | now exists s].
  - left. split; [exact I | now exists default].
Qed.

(** X5. [validate_plan] raises exactly when the city, the timing or the
    date_type is present and is not a string, and what it raises then is
    [AttributeError]; the budget never makes it raise. *)
Theorem validate_plan_raises (current_date : date) (plan : gmap string pyval) :
  (forall e, validate_plan current_date plan = Raise e -> e = AttributeError)
  /\ ((exists e, validate_plan current_date plan = Raise e) <->
      ~ (str_field plan "city" /\ str_field plan "timing"
         /\ str_field plan "date_type")).
Proof.
  destruct (validate_budget_returns (get plan "budget" (PyInt 0)))
    as (vb & mb & b & Hb & _).
  unfold validate_plan. rewrite Hb. cbn [bind].
  destruct (str_field_cases plan "city" "") as [[Tc [c Ec]] | [Tc Nc]].
  2: { destruct (not_str_raises _ Nc) as (-> & _ & _). cbn [bind].
       split; [now intros e [= <-] | ].
       split; [tauto | now exists AttributeError]. }
  destruct (validate_city_returns c) as (vc & mc & c' & Hc & _).
  rewrite Ec, Hc. cbn [bind].
  destruct (str_field_cases plan "timing" "today") as [[Tt [t Et]] | [Tt Nt]].
  2: { destruct (not_str_raises _ Nt) as (_ & -> & _). cbn [bind].
       split; [now intros e [= <-] | ].
       split; [tauto | now exists AttributeError]. }
  destruct (validate_date_time_returns current_date t) as (vt & mt & t' & Ht & _).
  rewrite Et, Ht. cbn [bind].
  destruct (str_field_cases plan "date_type" "") as [[Td [d Ed]] | [Td Nd]].
  2: { destruct (not_str_raises _ Nd) as (_ & _ & ->). cbn [bind].
       split; [now intros e [= <-] | ].
       split; [tauto | now exists AttributeError]. }
  destruct (validate_date_type_returns d) as (vd & md & d' & Hd & _).
  rewrite Ed, Hd. cbn [bind].
  split.
  - intros e. now destruct (note _ _).
  - split; [intros [e H]; now destruct (note _ _) | tauto].
Qed.

(** ** The keys the validator does not look at *)

(** X6. The corrected plan has the four keys and the keys of the plan given,
    and every key other than the four keeps the value it had. *)
Theorem validate_plan_other_keys (current_date : date) (plan : gmap string pyval)
    (all_valid : bool) (message : string) (P : gmap string pyval) :
  validate_plan current_date plan = Ok (all_valid, message, P) ->
  dom P = {[ "city"; "budget"; "timing"; "date_type" ]} ∪ dom plan
  /\ forall key, key ∉ ["city"; "budget"; "timing"; "date_type"] ->
       P !! key = plan !! key.
Proof.
  intros H.
  destruct (validate_plan_fields current_date plan _ _ _ H)
    as (rc & rb & rt & rd & _ & _ & _ & _ & ->).
  unfold corrected. split.
  - rewrite !dom_insert_L. set_solver.
  - intros key Hk. rewrite !lookup_insert_ne; [reflexivity | | | | ];
      intros <-; apply Hk; decide_by_eval.
Qed.

Lemma validate_plan_other_keys_witness :
  let plan : gmap string pyval :=
    <["special_requirements" := PyStr "indoor only"]>
      (<["needs_weather" := PyBool true]> ∅) in
  let P : gmap string pyval :=
    <["date_type" := PyStr "casual"]> (<["timing" := PyStr "today"]>
      (<["budget" := PyInt 500]> (<["city" := PyStr "Bangalore"]> plan))) in
  dom P = {[ "city"; "budget"; "timing"; "date_type" ]} ∪ dom plan
  /\ forall key, key ∉ ["city"; "budget"; "timing"; "date_type"] ->
       P !! key = plan !! key.
Proof.
  intros plan P.
  apply (validate_plan_other_keys (mkdate 2024 6 15) plan false
           "City not specified | Budget too low (minimum ₹500). Adjusted to ₹500. | Date type not specified. Using 'casual'."
           P).
  vm_compute. reflexivity.
Defined.

(** ** The budget as a clamp *)



(** ** The diagnostic and the verdict go together *)

Lemma invalid_field_has_message :
  (forall city message c, _validate_city city = Ok (false, message, c) -> message <> "")
  /\ (forall budget message b,
        _validate_budget budget = Ok (false, message, b) -> message <> "")
  /\ (forall current_date timing message t,
        _validate_date_time current_date timing = Ok (false, message, t) ->
        message <> "")
  /\ (forall date_type message d,
        _validate_date_type date_type = Ok (false, message, d) -> message <> "").
Proof.
  repeat split.
  - intros [ | | | | s] message c; try discriminate.
    unfold _validate_city. cbn [bind as_str].
    destruct (String.eqb _ ""); [now intros [= <- _] | ].
    destruct (negb _); [ | discriminate]. now intros [= <- _].
  - intros budget message b. unfold _validate_budget, MIN_BUDGET, MAX_BUDGET.
    destruct (py_int budget) as [z | e] eqn:E.
    + destruct (z <? 500); [intros [= <- _]; vm_compute; discriminate | ].
      destruct (50000 <? z); [intros [= <- _]; vm_compute; discriminate | discriminate].
    + destruct (py_int_raises _ _ E) as [-> | ->]; now intros [= <- _].
  - intros current_date [ | | | | s] message t; try discriminate.
    intros H.
    destruct (validate_date_time_verdict current_date s) as (r & E & V).
    rewrite E in H. destruct V as [ | d _ | ]; try discriminate.
    now injection H as <- _.
  - intros [ | | | | s] message d; try discriminate.
    unfold _validate_date_type. cbn [bind as_str].
    destruct (String.eqb _ ""); [now intros [= <- _] | now destruct (negb _)].
Qed.

Lemma join_nonempty (sep x : string) (l : list string) :
  x <> "" -> Py.join sep (x :: l) <> "".
Proof.
  intros Hx. destruct l as [ | y l]; cbn [Py.join]; [exact Hx | ].
  destruct x; [now destruct Hx | discriminate].
Qed.

(** X8. The diagnostic of [validate_plan] is empty exactly when the plan is
    reported all valid: a caller that prints it under [if not is_valid]
    never prints an empty warning and never withholds one. *)
Theorem diagnostic_empty_iff_valid (current_date : date) (plan : gmap string pyval)
    (all_valid : bool) (message : string) (P : gmap string pyval) :
  validate_plan current_date plan = Ok (all_valid, message, P) ->
  (message = "" <-> all_valid = true).
Proof.
  intros H.
  destruct (validate_plan_fields current_date plan _ _ _ H)
    as (rc & rb & rt & rd & Hc & Hb & Ht & Hd & ->).
  rewrite (validate_plan_assembled current_date plan rc rb rt rd Hc Hb Ht Hd) in H.
  injection H as <- <-.
  destruct invalid_field_has_message as (Mc & Mb & Mt & Md).
  destruct rc as [[vc mc] c], rb as [[vb mb] b], rt as [[vt mt] t], rd as [[vd md] d].
  unfold failures. cbn [fst snd flat_map].
  destruct vc; cbn [app andb].
  2: { specialize (Mc _ _ _ Hc). split; [ | discriminate].
       intros J. now apply join_nonempty in J. }
  destruct vb; cbn [app andb].
  2: { specialize (Mb _ _ _ Hb). split; [ | discriminate].
       intros J. now apply join_nonempty in J. }
  destruct vt; cbn [app andb].
  2: { specialize (Mt _ _ _ _ Ht). split; [ | discriminate].
       intros J. now apply join_nonempty in J. }
  destruct vd; cbn [app andb]; [easy | ].
  specialize (Md _ _ _ Hd). split; [ | discriminate].
  intros J. now apply join_nonempty in J.
Qed.

Lemma diagnostic_empty_iff_valid_witness :
  "City 'Goa' not supported. Using Bangalore instead." = "" <-> false = true.
Proof.
  eapply (diagnostic_empty_iff_valid (mkdate 2024 6 15)
           (plan_of (PyStr "Goa") (PyInt 1500) (PyStr "today") (PyStr "fun"))).
  vm_compute. reflexivity.
Defined.

(** * The list of supported cities *)

Lemma lower_upper_char (c : ascii) : Py.lower_char (Py.upper_char c) = Py.lower_char c.
Proof. destruct c as [[] [] [] [] [] [] [] []]; reflexivity. Qed.

Lemma lower_lower_char (c : ascii) : Py.lower_char (Py.lower_char c) = Py.lower_char c.
Proof. destruct c as [[] [] [] [] [] [] [] []]; reflexivity. Qed.

(** Title case changes the case of letters and nothing else. *)
Lemma lower_title_from (b : bool) (s : string) :
  Py.lower (Py.title_from b s) = Py.lower s.
Proof.
  revert b. induction s as [ | c s IH]; intros b; [reflexivity | ].
  cbn [Py.title_from].
  destruct (Py.is_lower c); [ | destruct (Py.is_upper c)];
    cbn [Py.lower]; rewrite IH; f_equal; destruct b;
    auto using lower_upper_char, lower_lower_char.
Qed.

Lemma in_insert_sorted (x y : string) (l : list string) :
  In y (Py.insert_sorted x l) -> y = x \/ In y l.
Proof.
  induction l as [ | z l IH]; cbn [Py.insert_sorted].
  - intros [<- | []]. now left.
  - destruct (String.leb x z).
    + intros [<- | H]; [now left | now right].
    + intros [<- | H]; [right; now left | ].
      destruct (IH H) as [-> | H']; [now left | right; now right].
Qed.

Lemma in_sorted (y : string) (l : list string) : In y (Py.sorted l) -> In y l.
Proof.
  induction l as [ | x l IH]; [easy | ].
  cbn [Py.sorted fold_right]. intros H.
  apply in_insert_sorted in H as [-> | H]; [now left | right; now apply IH].
Qed.

Lemma take_sorted_elements (S : gset string) (n : nat) (c : string) :
  c ∈ take n (Py.sorted (elements S)) -> c ∈ S.
Proof.
  intros Hc. apply elem_of_take in Hc as (i & Hc & _).
  apply list_elem_of_lookup_2, list_elem_of_In, in_sorted, list_elem_of_In in Hc.
  now apply elem_of_elements in Hc.
Qed.

Lemma supported_normal : set_Forall (fun c => Py.strip (Py.lower c) = c) SUPPORTED_CITIES.
Proof. decide_by_eval. Qed.

(** X9. The names [get_supported_cities_list] shows are ten cities of the
    allow-list in title case, and the city validator accepts every city of
    the allow-list written that way, as it is written. *)
Theorem supported_cities_list_accepted :
  (forall c, c ∈ SUPPORTED_CITIES ->
     _validate_city (PyStr (Py.title c)) = Ok (true, "", PyStr (Py.title c)))
  /\ exists cities,
       length cities = 10%nat
       /\ Forall (fun c => c ∈ SUPPORTED_CITIES) cities
       /\ get_supported_cities_list =
          Py.join ", " (map Py.title cities) +:+ ", and more...".
Proof.
  split.
  - intros c Hc. unfold _validate_city. cbn [bind as_str].
    unfold Py.title. rewrite lower_title_from, (supported_normal c Hc).
    destruct (String.eqb_spec c "") as [-> | _].
    + now apply empty_not_supported in Hc.
    + now rewrite bool_decide_eq_true_2.
  - exists (take 10 (Py.sorted (elements SUPPORTED_CITIES))).
    split; [vm_compute; reflexivity | ]. split; [ | reflexivity].
    apply Forall_forall. intros c. exact (take_sorted_elements SUPPORTED_CITIES 10 c).
Qed.

Lemma supported_cities_list_accepted_witness :
  _validate_city (PyStr "Pimpri-Chinchwad") = Ok (true, "", PyStr "Pimpri-Chinchwad").
Proof.
  apply (proj1 supported_cities_list_accepted "pimpri-chinchwad"). decide_by_eval.
Defined.

(** * The executor's reading of the timing *)

Lemma contains_empty (p : string) : p <> "" -> Py.contains p "" = false.
Proof. now destruct p. Qed.

Lemma startswith_rstrip (p s : string) :
  p <> "" -> spaceless p = true ->
  Py.startswith p s = true -> Py.startswith p (Py.rstrip s) = true.
Proof.
  revert s. induction p as [ | a p IH]; [easy | ].
  intros [ | b s] _ Hp H; [discriminate | ].
  cbn [Py.startswith spaceless] in *.
  apply andb_true_iff in Hp as [Ha Hp], H as [Hab H].
  apply Ascii.eqb_eq in Hab as <-. apply negb_true_iff in Ha.
  cbn [Py.rstrip]. destruct p as [ | a' p].
  - destruct (Py.rstrip s); [rewrite Ha | ]; cbn [Py.startswith];
      now rewrite Ascii.eqb_refl.
  - specialize (IH s ltac:(discriminate) Hp H).
    destruct (Py.rstrip s) as [ | c r]; [discriminate | ].
    cbn [Py.startswith] in *. now rewrite Ascii.eqb_refl, IH.
Qed.

Lemma contains_rstrip (p s : string) :
  p <> "" -> spaceless p = true ->
  Py.contains p s = true -> Py.contains p (Py.rstrip s) = true.
Proof.
  intros Hne Hp. induction s as [ | b s IH]; [now rewrite contains_empty | ].
  intros H. cbn [Py.contains] in H. apply orb_true_iff in H as [H | H].
  - apply (startswith_rstrip p _ Hne Hp) in H.
    destruct (Py.rstrip (String b s)); cbn [Py.contains]; now rewrite H.
  - specialize (IH H). cbn [Py.rstrip].
    destruct (Py.rstrip s) as [ | c r]; [now rewrite contains_empty in IH | ].
    cbn [Py.contains] in *. rewrite IH. apply orb_true_r.
Qed.

Lemma contains_lstrip (p s : string) :
  p <> "" -> spaceless p = true ->
  Py.contains p s = true -> Py.contains p (Py.lstrip s) = true.
Proof.
  intros Hne Hp. induction s as [ | b s IH]; [easy | ].
  intros H. cbn [Py.lstrip]. destruct (Py.is_space b) eqn:Hb; [ | exact H].
  apply IH. cbn [Py.contains] in H. apply orb_true_iff in H as [H | H]; [ | exact H].
  destruct p as [ | a p]; [easy | ]. cbn [Py.startswith spaceless] in *.
  apply andb_true_iff in H as [Hab _], Hp as [Ha _].
  apply Ascii.eqb_eq in Hab as <-. now rewrite Hb in Ha.
Qed.

(** A word without white space that occurs in a text occurs in the text
    stripped. *)
Lemma contains_strip (p s : string) :
  p <> "" -> spaceless p = true ->
  Py.contains p s = true -> Py.contains p (Py.strip s) = true.
Proof.
  intros Hne Hp H. unfold Py.strip.
  now apply contains_rstrip, contains_lstrip.
Qed.

(** X10. The executor and the validator agree on weekends: a timing for which
    [_parse_timing] answers 2 days ahead is one the timing validator
    accepts as it stands, on any current date. *)
Theorem weekend_timing_accepted (timing : string) (current_date : date) :
  _parse_timing (PyStr timing) = Ok 2 ->
  _validate_date_time current_date (PyStr timing) = Ok (true, "", PyStr timing).
Proof.
  unfold _parse_timing. cbn [bind as_str].
  destruct (_ || _); [discriminate | ].
  destruct (Py.contains "tomorrow" _); [discriminate | ].
  destruct (Py.contains "weekend" (Py.lower timing)) eqn:W; [ | discriminate].
  intros _. apply validate_date_time_relative. unfold relative.
  rewrite (contains_strip "weekend" _ ltac:(discriminate) eq_refl W).
  now rewrite orb_true_r.
Qed.

Lemma weekend_timing_accepted_witness :
  _validate_date_time (mkdate 2024 6 15) (PyStr "  Next WEEKEND, 10th June ") =
  Ok (true, "", PyStr "  Next WEEKEND, 10th June ").
Proof. apply weekend_timing_accepted. reflexivity. Defined.

Lemma plain_all :
  forallb (fun m => forallb (plain m) (seqZ 1 31)) (seqZ 1 12) = true.
Proof. vm_compute. reflexivity. Qed.

Lemma rolled_text_plain (d : date) :
  valid_date (year d) (month d) (day d) = true ->
  _parse_timing (PyStr (strftime d "%B %d")) = Ok 0.
Proof.
  intros V. apply valid_date_bounds in V as [Hm Hd].
  pose proof plain_all as A.
  rewrite forallb_forall in A. specialize (A (month d)).
  rewrite forallb_forall in A. specialize (fun H => A H (day d)).
  assert (U : plain (month d) (day d) = true).
  { apply A; apply list_elem_of_In, elem_of_seqZ; lia. }
  clear A. unfold plain in U.
  change (strftime (mkdate 1 (month d) (day d)) "%B %d") with (strftime d "%B %d") in U.
  destruct (_parse_timing _) as [[ | | ] | ]; congruence.
Qed.

(** X11. Whenever the timing validator changes the timing, to "today" or to the
    month and day of a date rolled to next year, the executor reads the new
    timing as 0 days ahead: the forecast asked for is today's. *)
Theorem corrected_timing_is_today (current_date : date) (timing : string)
    (valid : bool) (message corrected_timing : string) :
  _validate_date_time current_date (PyStr timing) =
    Ok (valid, message, PyStr corrected_timing) ->
  corrected_timing <> timing ->
  _parse_timing (PyStr corrected_timing) = Ok 0.
Proof.
  intros H Hne.
  destruct (validate_date_time_verdict current_date timing) as (r & E & V).
  rewrite E in H. destruct V as [ | d V | ].
  - now injection H as _ _ <-.
  - injection H as _ _ <-. now apply rolled_text_plain.
  - now injection H as _ _ <-.
Qed.

Lemma corrected_timing_is_today_witness :
  _parse_timing (PyStr "January 10") = Ok 0.
Proof.
  apply (corrected_timing_is_today (mkdate 2024 6 15) "10th January" true
           "⚠️ Date adjusted to January 10, 2025 (next year)" "January 10");
    [reflexivity | discriminate].
Defined.

(** * The restaurant search *)

Section Ranking.

Import PlacesAPI.

Lemma scaled_shift (a : Z * Z) (e e' : Z) :
  e' <= e <= a.2 -> scaled a e' = scaled a e * 2 ^ (e - e').
Proof.
  intros H. unfold scaled. rewrite <- Z.mul_assoc, <- Z.pow_add_r by lia.
  do 2 f_equal. lia.
Qed.

(** The comparison of two numbers is that of their mantissas at any
    exponent below both. *)
Lemma num_ltb_at (a b : Z * Z) (e : Z) :
  e <= a.2 -> e <= b.2 -> num_ltb a b = (scaled a e <? scaled b e).
Proof.
  intros Ha Hb. unfold num_ltb.
  rewrite (scaled_shift a (Z.min a.2 b.2) e), (scaled_shift b (Z.min a.2 b.2) e) by lia.
  assert (0 < 2 ^ (Z.min a.2 b.2 - e)) by (apply Z.pow_pos_nonneg; lia).
  destruct (Z.ltb_spec (scaled a (Z.min a.2 b.2)) (scaled b (Z.min a.2 b.2)));
    symmetry; [apply Z.ltb_lt | apply Z.ltb_ge]; nia.
Qed.

Lemma num_eqb_at (a b : Z * Z) (e : Z) :
  e <= a.2 -> e <= b.2 -> num_eqb a b = (scaled a e =? scaled b e).
Proof.
  intros Ha Hb. unfold num_eqb.
  rewrite (scaled_shift a (Z.min a.2 b.2) e), (scaled_shift b (Z.min a.2 b.2) e) by lia.
  assert (0 < 2 ^ (Z.min a.2 b.2 - e)) by (apply Z.pow_pos_nonneg; lia).
  destruct (Z.eqb_spec (scaled a (Z.min a.2 b.2)) (scaled b (Z.min a.2 b.2)));
    symmetry; [apply Z.eqb_eq | apply Z.eqb_neq]; nia.
Qed.

Lemma key_ltb_at (k1 k2 : (Z * Z) * Z) (e : Z) :
  e <= k1.1.2 -> e <= k2.1.2 ->
  key_ltb k1 k2 =
  if scaled k1.1 e =? scaled k2.1 e then k1.2 <? k2.2
  else scaled k1.1 e <? scaled k2.1 e.
Proof.
  intros H1 H2. unfold key_ltb.
  now rewrite (num_eqb_at _ _ e), (num_ltb_at _ _ e).
Qed.

Lemma key_ltb_asym (k1 k2 : (Z * Z) * Z) :
  key_ltb k1 k2 = true -> key_ltb k2 k1 = false.
Proof.
  rewrite (key_ltb_at k1 k2 (Z.min k1.1.2 k2.1.2)),
    (key_ltb_at k2 k1 (Z.min k1.1.2 k2.1.2)) by lia.
  repeat match goal with
         | |- context [?a =? ?b] => destruct (Z.eqb_spec a b)
         | |- context [?a <? ?b] => destruct (Z.ltb_spec a b)
         end; try reflexivity; try discriminate; lia.
Qed.

Lemma key_ltb_trans (k1 k2 k3 : (Z * Z) * Z) :
  key_ltb k1 k2 = false -> key_ltb k2 k3 = false -> key_ltb k1 k3 = false.
Proof.
  set (e := Z.min k1.1.2 (Z.min k2.1.2 k3.1.2)).
  rewrite (key_ltb_at k1 k2 e), (key_ltb_at k2 k3 e), (key_ltb_at k1 k3 e) by lia.
  repeat match goal with
         | |- context [?a =? ?b] => destruct (Z.eqb_spec a b)
         | |- context [?a <? ?b] => destruct (Z.ltb_spec a b)
         end; try reflexivity; try discriminate; lia.
Qed.

Lemma insert_desc_perm (x : restaurant) (l : list restaurant) :
  insert_desc x l ≡ₚ x :: l.
Proof.
  induction l as [ | y l IH]; [reflexivity | ].
  cbn [insert_desc]. destruct (key_ltb (key x) (key y)); [ | reflexivity].
  rewrite IH. apply Permutation_swap.
Qed.

Lemma sort_desc_perm (l : list restaurant) : sort_desc l ≡ₚ l.
Proof.
  induction l as [ | x l IH]; [reflexivity | ].
  cbn [sort_desc fold_right]. fold (sort_desc l).
  now rewrite insert_desc_perm, IH.
Qed.

Lemma insert_desc_sorted (x : restaurant) (l : list restaurant) :
  StronglySorted ranks_no_lower l -> StronglySorted ranks_no_lower (insert_desc x l).
Proof.
  induction 1 as [ | y l Hl IH Hy]; [repeat constructor | ].
  cbn [insert_desc]. destruct (key_ltb (key x) (key y)) eqn:E.
  - constructor; [exact IH | ].
    rewrite insert_desc_perm. constructor; [ | exact Hy].
    now apply key_ltb_asym.
  - constructor; [now constructor | ].
    constructor; [exact E | ].
    eapply Forall_impl; [exact Hy | ].
    intros z Hz. now apply (key_ltb_trans _ (key y)).
Qed.

Lemma sort_desc_sorted (l : list restaurant) : StronglySorted ranks_no_lower (sort_desc l).
Proof.
  induction l as [ | x l IH]; [constructor | ].
  cbn [sort_desc fold_right]. now apply insert_desc_sorted.
Qed.

End Ranking.

(** X12. What [search_restaurants] returns is at most five restaurants, and each
    comes before every restaurant whose (rating, number of reviews) key is
    lower: the list is in descending order of the key, a rating that is not
    a number counting as 0. *)
Theorem search_restaurants_ranked (post : PlacesAPI.request -> PlacesAPI.response)
    (city : string) (budget : Z) (date_type : string) (max_results : Z) :
  let out := PlacesAPI.search_restaurants post city budget date_type max_results in
  (length out <= 5)%nat /\ StronglySorted ranks_no_lower out.
Proof.
  unfold PlacesAPI.search_restaurants.
  destruct (negb _); [split; [cbn; lia | constructor] | ].
  split; [apply firstn_le_length | ].
  eapply StronglySorted_app_1_l. rewrite take_drop. apply sort_desc_sorted.
Qed.



(** ** The price filter *)

Lemma price_levels_mono (budget budget' : Z) :
  budget <= budget' ->
  PlacesAPI.price_levels budget ⊆ PlacesAPI.price_levels budget'.
Proof.
  intros H. unfold PlacesAPI.price_levels.
  repeat match goal with
         | |- context [?a <? ?b] => destruct (Z.ltb_spec a b)
         end; try lia; set_solver.
Qed.

(** X14. A place that passes the price filter at one budget passes it at any
    higher budget, and gives the same restaurant. *)
Theorem price_filter_monotone (budget budget' : Z) (p : PlacesAPI.place)
    (r : PlacesAPI.restaurant) :
  budget <= budget' ->
  PlacesAPI.restaurant_of (PlacesAPI.price_levels budget) p = Some r ->
  PlacesAPI.restaurant_of (PlacesAPI.price_levels budget') p = Some r.
Proof.
  intros H. unfold PlacesAPI.restaurant_of.
  destruct (bool_decide (_ ∈ PlacesAPI.price_levels budget)) eqn:B.
  - apply bool_decide_eq_true_1 in B. apply (price_levels_mono _ _ H) in B.
    now rewrite (bool_decide_eq_true_2 _ B).
  - cbn [orb]. destruct (String.eqb _ "PRICE_LEVEL_UNSPECIFIED"); [ | discriminate].
    now rewrite orb_true_r.
Qed.

Lemma price_filter_monotone_witness :
  let p := {| PlacesAPI.displayName_text := None;
              PlacesAPI.rating := None;
              PlacesAPI.priceLevel := None;
              PlacesAPI.formattedAddress := None;
              PlacesAPI.openNow := None;
              PlacesAPI.userRatingCount := None |} in
  PlacesAPI.restaurant_of (PlacesAPI.price_levels 50000) p =
  Some {| PlacesAPI.name := "Unknown";
          PlacesAPI.rating_ := PyStr "N/A";
          PlacesAPI.price_level := "₹₹";
          PlacesAPI.address := "Address not available";
          PlacesAPI.is_open := None;
          PlacesAPI.total_ratings := 0 |}.
Proof.
  intros p. apply (price_filter_monotone 1000 50000 p); [lia | reflexivity].
Defined.

Lemma format_price_levels (budget : Z) (level : string) :
  level ∈ PlacesAPI.price_levels budget ->
  PlacesAPI._format_price_level level ∈ ["₹"; "₹₹"; "₹₹₹"; "₹₹₹₹"]
  /\ (budget < 1000 -> PlacesAPI._format_price_level level = "₹").
Proof.
  unfold PlacesAPI.price_levels.
  repeat match goal with
         | |- context [?a <? ?b] => destruct (Z.ltb_spec a b)
         end; try lia;
    rewrite ?elem_of_cons, elem_of_nil;
    intros Hin; repeat destruct Hin as [-> | Hin]; try contradiction;
    (split; [decide_by_eval | (reflexivity || lia)]).
Qed.

(** X15. The price shown for a restaurant returned is one to four rupee signs or
    "Budget"; under a budget of 1000 it is one rupee sign or "Budget"; and a
    place that comes with no price level is read as moderate, so it is left
    out exactly when the budget is under 1000. *)
Theorem search_restaurants_prices (post : PlacesAPI.request -> PlacesAPI.response)
    (city : string) (budget : Z) (date_type : string) (max_results : Z) :
  (forall r,
     r ∈ PlacesAPI.search_restaurants post city budget date_type max_results ->
     PlacesAPI.price_level r ∈ ["₹"; "₹₹"; "₹₹₹"; "₹₹₹₹"; "Budget"]
     /\ (budget < 1000 -> PlacesAPI.price_level r ∈ ["₹"; "Budget"]))
  /\ (forall p,
        PlacesAPI.priceLevel p = None ->
        (PlacesAPI.restaurant_of (PlacesAPI.price_levels budget) p = None
         <-> budget < 1000)).
Proof.
  split.
  - intros r Hr. unfold PlacesAPI.search_restaurants in Hr.
    destruct (negb _); [now apply elem_of_nil in Hr | ].
    apply elem_of_take in Hr as (i & Hr & _). apply list_elem_of_lookup_2 in Hr.
    rewrite sort_desc_perm in Hr.
    apply list_elem_of_omap in Hr as (p & _ & Hp).
    unfold PlacesAPI.restaurant_of in Hp.
    destruct (bool_decide _) eqn:B.
    + injection Hp as <-. cbn [PlacesAPI.price_level].
      apply bool_decide_eq_true_1 in B.
      destruct (format_price_levels _ _ B) as [F1 F2]. split.
      * set_solver.
      * intros Hb. rewrite (F2 Hb). set_solver.
    + cbn [orb] in Hp.
      destruct (String.eqb_spec (default "PRICE_LEVEL_MODERATE" (PlacesAPI.priceLevel p))
                  "PRICE_LEVEL_UNSPECIFIED") as [E | _]; [ | discriminate].
      injection Hp as <-. cbn [PlacesAPI.price_level]. rewrite E.
      split; [decide_by_eval | intros _; decide_by_eval].
  - intros p Hp. unfold PlacesAPI.restaurant_of, PlacesAPI.price_levels.
    rewrite Hp. cbn [default].
    repeat match goal with
           | |- context [?a <? ?b] => destruct (Z.ltb_spec a b)
           end; try lia;
      (split; [try discriminate; intros _; assumption | intros ?; reflexivity || lia]).
Qed.

Lemma search_restaurants_prices_witness :
  let post := fun _ : PlacesAPI.request =>
    {| PlacesAPI.status_code := 200;
       PlacesAPI.places :=
         [ {| PlacesAPI.displayName_text := Some "Darshini";
              PlacesAPI.rating := Some (PyFloat 17 (-2));
              PlacesAPI.priceLevel := Some "PRICE_LEVEL_INEXPENSIVE";
              PlacesAPI.formattedAddress := Some "MG Road";
              PlacesAPI.openNow := Some true;
              PlacesAPI.userRatingCount := Some 812 |} ] |} in
  let r := {| PlacesAPI.name := "Darshini";
              PlacesAPI.rating_ := PyFloat 17 (-2);
              PlacesAPI.price_level := "₹";
              PlacesAPI.address := "MG Road";
              PlacesAPI.is_open := Some true;
              PlacesAPI.total_ratings := 812 |} in
  PlacesAPI.price_level r ∈ ["₹"; "₹₹"; "₹₹₹"; "₹₹₹₹"; "Budget"]
  /\ (500 < 1000 -> PlacesAPI.price_level r ∈ ["₹"; "Budget"]).
Proof.
  intros post r.
  apply (proj1 (search_restaurants_prices post "Bangalore" 500 "casual" 10) r).
  vm_compute. constructor.
Defined.

(** ** The centre of the search *)

(** X16. The two tables of coordinates have the same cities; a city in neither,
    whatever its case, is searched around the coordinates of Bangalore; and
    of the cities the validator supports, those are gurgaon, gurugram, noida
    and ghaziabad. *)
Theorem search_centre_of_unknown_city :
  dom PlacesAPI.lat_coords = dom PlacesAPI.lng_coords
  /\ SUPPORTED_CITIES ∖ dom PlacesAPI.lat_coords =
     {[ "gurgaon"; "gurugram"; "noida"; "ghaziabad" ]}
  /\ forall city,
       Py.lower city ∉ dom PlacesAPI.lat_coords ->
       PlacesAPI._get_city_lat city = PlacesAPI._get_city_lat "Bangalore"
       /\ PlacesAPI._get_city_lng city = PlacesAPI._get_city_lng "Bangalore".
Proof.
  assert (D : dom PlacesAPI.lat_coords = dom PlacesAPI.lng_coords) by decide_by_eval.
  split; [exact D | ]. split; [decide_by_eval | ].
  intros city H. unfold PlacesAPI._get_city_lat, PlacesAPI._get_city_lng.
  pose proof H as H'. rewrite D in H'.
  apply not_elem_of_dom in H, H'. rewrite H, H'. split; reflexivity.
Qed.

Lemma search_centre_of_unknown_city_witness :
  PlacesAPI._get_city_lat "Noida" = PlacesAPI._get_city_lat "Bangalore"
  /\ PlacesAPI._get_city_lng "Noida" = PlacesAPI._get_city_lng "Bangalore".
Proof.
  apply (proj2 (proj2 search_centre_of_unknown_city) "Noida"). decide_by_eval.
Defined.

(** * The verifier's filter *)

Lemma filter_restaurants_str {A : Type} (restaurants : list A)
    (weather : option (gmap string pyval)) (s : string) :
  _filter_restaurants restaurants weather (PyStr s) = Ok (take 5 restaurants).
Proof.
  unfold _filter_restaurants. destruct restaurants as [ | x l]; [reflexivity | ].
  destruct weather as [w | ]; [ | reflexivity].
  destruct (bool_decide (w = ∅)); [reflexivity | ].
  now destruct (truthy _).
Qed.

(** X17. [_filter_restaurants] raises only on a weather dict that is not empty
    and does not announce rain, together with special requirements that are
    not a string; otherwise, whatever the weather and the requirements, it
    returns the first five restaurants it was given: none is dropped for
    rain or for an indoor requirement. *)
Theorem filter_restaurants_first_five {A : Type} (restaurants : list A)
    (weather : option (gmap string pyval)) (special_requirements : pyval) :
  (forall r,
     _filter_restaurants restaurants weather special_requirements = Ok r ->
     r = take 5 restaurants)
  /\ (forall e,
        _filter_restaurants restaurants weather special_requirements = Raise e ->
        e = AttributeError
        /\ restaurants <> []
        /\ (forall s, special_requirements <> PyStr s)
        /\ exists w, weather = Some w /\ w <> ∅
                     /\ truthy (get w "will_rain" PyNone) = false)
  /\ (forall s,
        _filter_restaurants restaurants weather (PyStr s) = Ok (take 5 restaurants)).
Proof.
  unfold _filter_restaurants.
  destruct restaurants as [ | x l]; [repeat split; (discriminate || now intros ? [= <-]) | ].
  destruct weather as [w | ].
  2: { cbn [bind]. repeat split; (discriminate || now intros ? [= <-]). }
  destruct (bool_decide (w = ∅)) eqn:B.
  { cbn [bind]. repeat split; (discriminate || now intros ? [= <-]). }
  apply bool_decide_eq_false_1 in B.
  destruct (truthy _) eqn:T.
  { cbn [bind]. repeat split; (discriminate || now intros ? [= <-]). }
  split; [ | split].
  - destruct special_requirements as [ | b | z | m ex | s]; cbn [bind as_str];
      (discriminate || now intros ? [= <-]).
  - destruct special_requirements as [ | b | z | m ex | s]; cbn [bind as_str];
      try discriminate;
      intros e [= <-]; (split; [reflexivity | ]); (split; [discriminate | ]);
      (split; [discriminate | ]); exists w; auto.
  - reflexivity.
Qed.

Lemma filter_restaurants_first_five_witness :
  [1; 2; 3; 4; 5] = take 5 [1; 2; 3; 4; 5; 6; 7].
Proof.
  apply (proj1 (filter_restaurants_first_five [1; 2; 3; 4; 5; 6; 7]
                  (Some (<["will_rain" := PyBool true]> ∅)) PyNone)).
  reflexivity.
Defined.

Lemma search_restaurants_length (post : PlacesAPI.request -> PlacesAPI.response)
    (city : string) (budget : Z) (date_type : string) (max_results : Z) :
  (length (PlacesAPI.search_restaurants post city budget date_type max_results) <= 5)%nat.
Proof.
  unfold PlacesAPI.search_restaurants.
  destruct (negb _); [cbn; lia | apply firstn_le_length].
Qed.

(** X18. The verifier's filter takes nothing away from what the search returns:
    applied to the result of [search_restaurants], with requirements that
    are a string, it gives the same list back. *)
Theorem filter_after_search (post : PlacesAPI.request -> PlacesAPI.response)
    (city : string) (budget : Z) (date_type : string) (max_results : Z)
    (weather : option (gmap string pyval)) (special_requirements : string) :
  _filter_restaurants
    (PlacesAPI.search_restaurants post city budget date_type max_results)
    weather (PyStr special_requirements) =
  Ok (PlacesAPI.search_restaurants post city budget date_type max_results).
Proof.
  rewrite filter_restaurants_str.
  f_equal. apply take_ge, search_restaurants_length.
Qed.

(** * The plan that goes on to the executor *)






(** * The plan the planner hands over *)

Lemma validate_budget_int (z : Z) :
  exists (valid : bool) (message : string),
    _validate_budget (PyInt z) =
      Ok (valid, message, PyInt (Z.max MIN_BUDGET (Z.min MAX_BUDGET z)))
    /\ message <> "Invalid budget. Using default ₹2000.".
Proof.
  unfold _validate_budget, MIN_BUDGET, MAX_BUDGET. cbn [py_int].
  destruct (Z.ltb_spec z 500); [ | destruct (Z.ltb_spec 50000 z)];
    do 2 eexists; (split; [f_equal; f_equal; f_equal; lia | vm_compute; discriminate]).
Qed.

Lemma lookup_budget_second (c b : pyval) (m : gmap string pyval) :
  <["city" := c]> (<["budget" := b]> m) !! "budget" = Some b.
Proof. rewrite lookup_insert_ne by discriminate. apply lookup_insert_eq. Qed.

Lemma extract_intent_cases (extracted_data : outcome (gmap string pyval)) :
  extract_intent extracted_data = default_plan
  \/ exists city budget date_type timing needs_weather needs_restaurants
            special_requirements,
       extract_intent extracted_data =
       <["city" := city]> (<["budget" := PyInt budget]>
       (<["date_type" := date_type]> (<["timing" := timing]>
       (<["needs_weather" := needs_weather]>
       (<["needs_restaurants" := needs_restaurants]>
       (<["special_requirements" := special_requirements]> ∅)))))).
Proof.
  destruct extracted_data as [data | e]; cbn [extract_intent]; [ | now left].
  destruct (py_int _); [right; now do 7 eexists | now left].
Qed.

(** X20. Whatever the model answered, the plan [extract_intent] returns has the
    seven keys and an int under "budget"; so the budget validator answers
    with that int brought into [500, 50000], and never with its "Invalid
    budget" default. *)
Theorem planner_plan_shape (extracted_data : outcome (gmap string pyval)) :
  let plan := extract_intent extracted_data in
  dom plan =
    {[ "city"; "budget"; "date_type"; "timing"; "needs_weather";
       "needs_restaurants"; "special_requirements" ]}
  /\ exists (z : Z) (valid : bool) (message : string),
       plan !! "budget" = Some (PyInt z)
       /\ _validate_budget (get plan "budget" (PyInt 0)) =
          Ok (valid, message, PyInt (Z.max MIN_BUDGET (Z.min MAX_BUDGET z)))
       /\ message <> "Invalid budget. Using default ₹2000.".
Proof.
  intros plan. subst plan.
  destruct (extract_intent_cases extracted_data)
    as [-> | (c & b & d & t & w & r & q & ->)].
  - split; [unfold default_plan; rewrite !dom_insert_L, dom_empty_L; set_solver | ].
    destruct (validate_budget_int 2000) as (valid & message & H & M).
    exists 2000, valid, message.
    split; [vm_compute; reflexivity | ]. split; [exact H | exact M].
  - split; [rewrite !dom_insert_L, dom_empty_L; set_solver | ].
    destruct (validate_budget_int b) as (valid & message & H & M).
    pose proof (lookup_budget_second c (PyInt b)
                  (<["date_type" := d]> (<["timing" := t]> (<["needs_weather" := w]>
                  (<["needs_restaurants" := r]>
                  (<["special_requirements" := q]> ∅)))))) as L.
    exists b, valid, message. split; [exact L | ].
    unfold get. rewrite L. now split.
Qed.



Lemma validate_plan_raises_witness :
  ~ (str_field (<["city" := PyNone]> ∅) "city"
     /\ str_field (<["city" := PyNone]> ∅) "timing"
     /\ str_field (<["city" := PyNone]> ∅) "date_type").
Proof.
  apply (proj1 (proj2 (validate_plan_raises (mkdate 2024 6 15) (<["city" := PyNone]> ∅)))).
  exists AttributeError. reflexivity.
Defined.
